(** * wx-server-graphql: the request pipeline of [graphqlWXServer] and of the
    HTTP middleware it was derived from

    The repository is glue around graphql-js.  Both handlers are embedded
    here as executable functions over a small universe of JavaScript values.
    The GraphQL engine ([validateSchema], [parse], [validate], [execute],
    [formatError], [getOperationAST]) and the host built-ins ([JSON.parse],
    [JSON.stringify], the explorer renderer) are collaborators: they are
    taken as records of functions, each of which may return or throw.  Every
    call into the engine is recorded in a trace, so that statements about
    which step ran can be made. *)

From Stdlib Require Import ZArith List String Ascii Bool Lia DecimalString.
Import ListNotations.
Set Warnings "-register-all".
Open Scope string_scope.
Open Scope Z_scope.

(** ** JavaScript values

    The JSON fragment plus [undefined].  Numbers are the integers that
    [String] prints digit by digit (those below 10^21 in magnitude); a
    string is the sequence of its UTF-8 bytes.  An object is a list of
    fields in insertion order. *)

Inductive JSValue : Type :=
| JSUndefined
| JSNull
| JSBool (b : bool)
| JSNumber (n : Z)
| JSString (s : string)
| JSArray (items : list JSValue)
| JSObject (fields : list (string * JSValue)).

(** [typeof v] *)
Definition typeof (v : JSValue) : string :=
  match v with
  | JSUndefined => "undefined"
  | JSNull => "object"
  | JSBool _ => "boolean"
  | JSNumber _ => "number"
  | JSString _ => "string"
  | JSArray _ => "object"
  | JSObject _ => "object"
  end.

(** [v == null] *)
Definition nullish (v : JSValue) : bool :=
  match v with
  | JSUndefined | JSNull => true
  | _ => false
  end.

(** [a ?? b] *)
Definition coalesce (a b : JSValue) : JSValue :=
  if nullish a then b else a.

(** [a ?? b] for an optional record field *)
Definition option_coalesce {A : Type} (a : option A) (b : A) : A :=
  match a with
  | Some x => x
  | None => b
  end.

(** The truth value of [v] in a condition. *)
Definition truthy (v : JSValue) : bool :=
  match v with
  | JSUndefined | JSNull => false
  | JSBool b => b
  | JSNumber n => negb (n =? 0)
  | JSString s => negb (String.eqb s "")
  | JSArray _ | JSObject _ => true
  end.

Fixpoint lookup_field (k : string) (fields : list (string * JSValue))
  : option JSValue :=
  match fields with
  | [] => None
  | (k', v) :: rest => if String.eqb k k' then Some v else lookup_field k rest
  end.

(** Assignment of a key: an existing key keeps its place. *)
Fixpoint set_field (k : string) (v : JSValue) (fields : list (string * JSValue))
  : list (string * JSValue) :=
  match fields with
  | [] => [(k, v)]
  | (k', v') :: rest =>
      if String.eqb k k' then (k, v) :: rest else (k', v') :: set_field k v rest
  end.

(** [{ ...target, ...source }] *)
Definition spread (target source : list (string * JSValue))
  : list (string * JSValue) :=
  fold_left (fun acc kv => set_field (fst kv) (snd kv) acc) source target.

Definition string_of_Z (n : Z) : string :=
  NilZero.string_of_int (Z.to_int n).

(** [String(v)] *)
Fixpoint to_String (v : JSValue) : string :=
  match v with
  | JSUndefined => "undefined"
  | JSNull => "null"
  | JSBool true => "true"
  | JSBool false => "false"
  | JSNumber n => string_of_Z n
  | JSString s => s
  | JSArray items =>
      let item_string (x : JSValue) : string :=
        if nullish x then "" else to_String x in
      (fix join (xs : list JSValue) : string :=
         match xs with
         | [] => ""
         | [x] => item_string x
         | x :: rest => item_string x ++ "," ++ join rest
         end) items
  | JSObject _ => "[object Object]"
  end.

Fixpoint index_entries (i : Z) (xs : list JSValue) : list (string * JSValue) :=
  match xs with
  | [] => []
  | x :: rest => (string_of_Z i, x) :: index_entries (i + 1) rest
  end.

Fixpoint chars_of (s : string) : list JSValue :=
  match s with
  | EmptyString => []
  | String c rest => JSString (String c EmptyString) :: chars_of rest
  end.

(** [Object.entries(v)] for a non-nullish [v] *)
Definition Object_entries (v : JSValue) : list (string * JSValue) :=
  match v with
  | JSObject fields => fields
  | JSArray items => index_entries 0 items
  | JSString s => index_entries 0 (chars_of s)
  | _ => []
  end.

(** ** Completions

    A called function returns or throws ([Outcome]).  A block of statements
    completes normally, throws, or leaves the enclosing function through a
    [return] statement ([Completion]); the handlers' early returns carry no
    value. *)

Inductive Outcome (A : Type) : Type :=
| Returns (a : A)
| Throws (e : JSValue).
Arguments Returns {A} a.
Arguments Throws {A} e.

Inductive Completion (A : Type) : Type :=
| Normal (a : A)
| Throw (e : JSValue)
| Returned.
Arguments Normal {A} a.
Arguments Throw {A} e.
Arguments Returned {A}.

(** Statements over a state [S]: the state is kept when a statement throws. *)
Definition M (S A : Type) : Type := S -> Completion A * S.

Definition ret {S A : Type} (a : A) : M S A := fun s => (Normal a, s).

Definition bind {S A B : Type} (m : M S A) (k : A -> M S B) : M S B :=
  fun s =>
    match m s with
    | (Normal a, s') => k a s'
    | (Throw e, s') => (Throw e, s')
    | (Returned, s') => (Returned, s')
    end.

Definition throw {S A : Type} (e : JSValue) : M S A := fun s => (Throw e, s).

Definition return_ {S A : Type} : M S A := fun s => (Returned, s).

(** [try { body } catch (error) { handler }] *)
Definition try_catch {S A : Type} (body : M S A) (handler : JSValue -> M S A)
  : M S A :=
  fun s =>
    match body s with
    | (Throw e, s') => handler e s'
    | other => other
    end.

Definition lift {S A : Type} (o : Outcome A) : M S A :=
  fun s =>
    match o with
    | Returns a => (Normal a, s)
    | Throws e => (Throw e, s)
    end.

Declare Scope js_scope.
Delimit Scope js_scope with js.
Notation "x <- m ;; k" := (bind m (fun x => k))
  (at level 61, m at next level, right associativity) : js_scope.
Notation "m ;;; k" := (bind m (fun _ => k))
  (at level 61, right associativity) : js_scope.

(** ** Property access and errors *)

Definition TypeError (message : string) : JSValue :=
  JSObject [("name", JSString "TypeError"); ("message", JSString message)].

(** [new Error(message)] *)
Definition Error (message : string) : JSValue :=
  JSObject [("name", JSString "Error"); ("message", JSString message)].

(** [v.k] for the property names the handlers read.  Reading a property of
    [undefined] or [null] throws. *)
Definition get_prop (v : JSValue) (k : string) : Outcome JSValue :=
  match v with
  | JSUndefined =>
      Throws (TypeError ("Cannot read properties of undefined (reading '" ++ k ++ "')"))
  | JSNull =>
      Throws (TypeError ("Cannot read properties of null (reading '" ++ k ++ "')"))
  | JSObject fields =>
      Returns (match lookup_field k fields with Some x => x | None => JSUndefined end)
  | JSArray items =>
      Returns (if String.eqb k "length" then JSNumber (Z.of_nat (List.length items))
               else JSUndefined)
  | JSString s =>
      Returns (if String.eqb k "length" then JSNumber (Z.of_nat (String.length s))
               else JSUndefined)
  | JSBool _ | JSNumber _ => Returns JSUndefined
  end.

(** [const httpError = (statusCode, message, errDtails = {}) =>
      ({ statusCode, message, ...errDtails })] *)
Definition httpError (statusCode : Z) (message : string)
  (errDtails : list (string * JSValue)) : JSValue :=
  JSObject (spread [("statusCode", JSNumber statusCode);
                    ("message", JSString message)] errDtails).

(** ** Data shared by the two handlers *)

(** [new Source(body, name)] *)
Record Source : Type := {
  body : JSValue;
  name : string
}.

Definition ValidationRule : Type := string.

(** The [operation] of an operation definition node. *)
Inductive OperationTypeNode : Type := query_op | mutation_op | subscription_op.

Definition operation_string (o : OperationTypeNode) : string :=
  match o with
  | query_op => "query"
  | mutation_op => "mutation"
  | subscription_op => "subscription"
  end.

(** [ExecutionResult]; an absent field is [undefined]. *)
Record ExecutionResult : Type := {
  data : JSValue;
  errors : JSValue;
  extensions : JSValue
}.

(** [GraphQLParams], holding whatever extraction left in each field. *)
Record GraphQLParams : Type := {
  query : JSValue;
  variables : JSValue;
  operationName : JSValue;
  raw : JSValue
}.

(** The value handed to resolvers as context: a caller's value, or (HTTP
    handler) the request itself. *)
Inductive ContextValue (Req : Type) : Type :=
| ContextOf (v : JSValue)
| ContextRequest (r : Req).
Arguments ContextOf {Req} v.
Arguments ContextRequest {Req} r.

Record ExecutionArgs (Req : Type) : Type := {
  arg_schema : JSValue;
  arg_document : JSValue;
  arg_rootValue : JSValue;
  arg_contextValue : ContextValue Req;
  arg_variableValues : JSValue;
  arg_operationName : JSValue;
  arg_fieldResolver : JSValue;
  arg_typeResolver : JSValue
}.
Arguments arg_schema {Req} _.
Arguments arg_document {Req} _.
Arguments arg_rootValue {Req} _.
Arguments arg_contextValue {Req} _.
Arguments arg_variableValues {Req} _.
Arguments arg_operationName {Req} _.
Arguments arg_fieldResolver {Req} _.
Arguments arg_typeResolver {Req} _.

(** [RequestInfo], the argument of the [extensions] callback. *)
Record RequestInfo (Req : Type) : Type := {
  info_document : JSValue;
  info_variables : JSValue;
  info_operationName : JSValue;
  info_result : ExecutionResult;
  info_context : ContextValue Req
}.

(** The functions imported from graphql-js. *)
Record GraphQL (Req : Type) : Type := {
  validateSchema : JSValue -> Outcome (list JSValue);
  parse : Source -> Outcome JSValue;
  validate : JSValue -> JSValue -> list ValidationRule -> Outcome (list JSValue);
  execute : ExecutionArgs Req -> Outcome ExecutionResult;
  formatError : JSValue -> Outcome JSValue;
  getOperationAST : JSValue -> JSValue -> Outcome (option OperationTypeNode);
  specifiedRules : list ValidationRule
}.
Arguments validateSchema {Req} _.
Arguments parse {Req} _.
Arguments validate {Req} _.
Arguments execute {Req} _.
Arguments formatError {Req} _.
Arguments getOperationAST {Req} _.
Arguments specifiedRules {Req} _.

(** One entry per call into the engine or into a caller's replacement of
    one of its functions. *)
Inductive Event (Req : Type) : Type :=
| CallValidateSchema (schema : JSValue)
| CallParse (source : Source)
| CallValidate (schema documentAST : JSValue) (rules : list ValidationRule)
| CallGetOperationAST (documentAST operationName : JSValue)
| CallExecute (args : ExecutionArgs Req)
| CallExtensions (info : RequestInfo Req).
Arguments CallValidateSchema {Req} schema.
Arguments CallParse {Req} source.
Arguments CallValidate {Req} schema documentAST rules.
Arguments CallGetOperationAST {Req} documentAST operationName.
Arguments CallExecute {Req} args.
Arguments CallExtensions {Req} info.

(** The host's [JSON.parse]. *)
Definition JSONParser : Type := string -> Outcome JSValue.

(** [if (typeof x !== 'string') { x = null }] *)
Definition string_or_null (x : JSValue) : JSValue :=
  if negb (String.eqb (typeof x) "string") then JSNull else x.

(** A function called as [httpError(code, message, properties)].  The
    cloud-function module declares the one above.  The module of the HTTP
    handler calls [httpError] without declaring or importing it, so that
    handler is embedded over any such function. *)
Definition HttpError : Type := Z -> string -> list (string * JSValue) -> JSValue.

(** The statement that decodes [variables], the same in both extractors:
    a string is handed to [JSON.parse], whose failure becomes a 400; any
    other value whose [typeof] is not ['object'] becomes [null]. *)
Definition parse_variables_with (httpError : HttpError)
  (JSON_parse : JSONParser) (variables : JSValue) : Outcome JSValue :=
  match variables with
  | JSString s =>
      match JSON_parse s with
      | Returns decoded => Returns decoded
      | Throws _ => Throws (httpError 400 "Variables are invalid JSON." [])
      end
  | _ =>
      if negb (String.eqb (typeof variables) "object") then Returns JSNull
      else Returns variables
  end.

Definition parse_variables : JSONParser -> JSValue -> Outcome JSValue :=
  parse_variables_with httpError.

(** ** The cloud-function handler *)

Module WX.

(** The event carries no request object. *)
Definition Req : Type := Empty_set.

Definition Trace : Type := list (Event Req).

(** [OptionsData] *)
Record Options : Type := {
  wxParams : JSValue;
  schema : JSValue;
  context : JSValue;
  rootValue : JSValue;
  pretty : option bool;
  validationRules : option (list ValidationRule);
  customValidateFn :
    option (JSValue -> JSValue -> list ValidationRule -> Outcome (list JSValue));
  customExecuteFn : option (ExecutionArgs Req -> Outcome ExecutionResult);
  customFormatErrorFn : option (JSValue -> Outcome JSValue);
  customParseFn : option (Source -> Outcome JSValue);
  formatError_option : option (JSValue -> Outcome JSValue);
  fieldResolver : JSValue;
  typeResolver : JSValue
}.

(** The options with other error formatters. *)
Definition with_formatters
  (custom legacy : option (JSValue -> Outcome JSValue)) (o : Options) : Options :=
  {| wxParams := wxParams o; schema := schema o; context := context o;
     rootValue := rootValue o; pretty := pretty o;
     validationRules := validationRules o;
     customValidateFn := customValidateFn o;
     customExecuteFn := customExecuteFn o;
     customFormatErrorFn := custom;
     customParseFn := customParseFn o;
     formatError_option := legacy;
     fieldResolver := fieldResolver o; typeResolver := typeResolver o |}.

(** [getGraphQLParams(param)] *)
Definition getGraphQLParams (JSON_parse : JSONParser) (param : JSValue)
  : Outcome GraphQLParams :=
  match get_prop param "query" with
  | Throws e => Throws e
  | Returns query0 =>
      let query := string_or_null query0 in
      match get_prop param "variables" with
      | Throws e => Throws e
      | Returns variables0 =>
          match parse_variables JSON_parse variables0 with
          | Throws e => Throws e
          | Returns variables =>
              match get_prop param "operationName" with
              | Throws e => Throws e
              | Returns operationName0 =>
                  let operationName := string_or_null operationName0 in
                  match get_prop param "raw" with
                  | Throws e => Throws e
                  | Returns raw =>
                      Returns {| query := query; variables := variables;
                                 operationName := operationName; raw := raw |}
                  end
              end
          end
      end
  end.

Definition call {A : Type} (ev : Event Req) (o : Outcome A) : M Trace A :=
  fun t => lift o (t ++ [ev])%list.

Section Handler.

Variable G : GraphQL Req.
Variable JSON_parse : JSONParser.

Local Open Scope js_scope.

(** The [try] block of [graphqlWXServer].  The error formatter and the
    [pretty] flag are selected as in the source; nothing reads them. *)
Definition pipeline (options : Options) : M Trace ExecutionResult :=
  params <- lift (getGraphQLParams JSON_parse (wxParams options)) ;;
  let optionsData := options in
  let schema := schema optionsData in
  let rootValue := rootValue optionsData in
  let validationRules := option_coalesce (validationRules optionsData) [] in
  let fieldResolver := fieldResolver optionsData in
  let typeResolver := typeResolver optionsData in
  let context := context optionsData in
  let parseFn := option_coalesce (customParseFn optionsData) (parse G) in
  let executeFn := option_coalesce (customExecuteFn optionsData) (execute G) in
  let validateFn := option_coalesce (customValidateFn optionsData) (validate G) in
  let pretty := option_coalesce (pretty optionsData) false in
  let formatErrorFn :=
    option_coalesce (customFormatErrorFn optionsData)
      (option_coalesce (formatError_option optionsData) (formatError G)) in
  if nullish schema then
    throw (httpError 500 "GraphQL middleware options must contain a schema." [])
  else
  let query := query params in
  let variables := variables params in
  let operationName := operationName params in
  if nullish query then
    throw (httpError 400 "Must provide query string." [])
  else
  schemaValidationErrors <-
    call (CallValidateSchema schema) (validateSchema G schema) ;;
  if (0 <? Z.of_nat (List.length schemaValidationErrors)) then
    throw (httpError 500 "GraphQL schema validation error."
             [("graphqlErrors", JSArray schemaValidationErrors)])
  else
  let source := {| body := query; name := "GraphQL request" |} in
  documentAST <-
    try_catch (call (CallParse source) (parseFn source))
      (fun syntaxError =>
         throw (httpError 400 "GraphQL syntax error."
                  [("graphqlErrors", JSArray [syntaxError])])) ;;
  let rules := (specifiedRules G ++ validationRules)%list in
  validationErrors <-
    call (CallValidate schema documentAST rules)
         (validateFn schema documentAST rules) ;;
  if (0 <? Z.of_nat (List.length validationErrors)) then
    throw (httpError 400 "GraphQL validation error."
             [("graphqlErrors", JSArray validationErrors)])
  else
  let args :=
    {| arg_schema := schema; arg_document := documentAST;
       arg_rootValue := rootValue; arg_contextValue := ContextOf context;
       arg_variableValues := variables; arg_operationName := operationName;
       arg_fieldResolver := fieldResolver; arg_typeResolver := typeResolver |} in
  try_catch (call (CallExecute args) (executeFn args))
    (fun contextError =>
       throw (httpError 400 "GraphQL execution context error."
                [("graphqlErrors", JSArray [contextError])])).

(** [catch (error) { result = { data: undefined,
                                errors: error.graphqlErrors || [error] } }] *)
Definition on_error (error : JSValue) : M Trace ExecutionResult :=
  graphqlErrors <- lift (get_prop error "graphqlErrors") ;;
  ret {| data := JSUndefined;
         errors := if truthy graphqlErrors then graphqlErrors
                   else JSArray [error];
         extensions := JSUndefined |}.

(** [graphqlWXServer(options)]: [Normal r] is the promise resolved with [r],
    [Throw e] the promise rejected with [e]. *)
Definition graphqlWXServer (options : Options) : M Trace ExecutionResult :=
  try_catch (pipeline options) on_error.

End Handler.

End WX.

(** ** The HTTP handler

    The handler's file declares neither the request and response types nor
    [parseBody], [accepts], [renderGraphiQL] and [httpError].  The first
    are taken here as follows, the response being Node's [ServerResponse];
    [httpError] is a parameter of the handler ([graphqlMiddleware_with] and
    the definitions it is made of), and [graphqlMiddleware] is the handler
    with the failures built as the cloud-function module builds them. *)

Module HTTP.

(** What the handler reads from a request. *)
Record Request : Type := {
  (** [request.method] *)
  method : string;
  (** the entries of [new URLSearchParams(request.url.split('?')[1])] *)
  url_params : list (string * string);
  (** what [parseBody(request)] resolves to, or rejects with *)
  body_data : Outcome (list (string * JSValue));
  (** [accepts(request).types(['json', 'html'])] *)
  preferred_type : JSValue
}.

Definition Req : Type := Request.

Inductive Sent : Type :=
| SentJson (formattedResult : ExecutionResult)   (* response.json(...) *)
| SentChunk (chunk : string).                    (* response.end(chunk) *)

(** The response, as the server hands it to the middleware and as the
    handler leaves it.  Node also refuses to set a header once the headers
    are sent.  The handler sets headers only before it ends the response, so
    that refusal can come from the response it is given only, which is taken
    to be one whose headers are not yet sent; the statements below about
    setting headers say so. *)
Record Response : Type := {
  statusCode : JSValue;
  (** the headers set, each under the name it was last set with *)
  headers : list (string * string);
  (** [typeof response.json === 'function'] *)
  has_json : bool;
  (** how the response was ended, if it was *)
  sent : option Sent
}.

(** [OptionsData] as the handler reads it. *)
Record OptionsData : Type := {
  schema : JSValue;
  context : JSValue;
  rootValue : JSValue;
  pretty : option bool;
  validationRules : option (list ValidationRule);
  customValidateFn :
    option (JSValue -> JSValue -> list ValidationRule -> Outcome (list JSValue));
  customExecuteFn : option (ExecutionArgs Req -> Outcome ExecutionResult);
  customFormatErrorFn : option (JSValue -> Outcome JSValue);
  customParseFn : option (Source -> Outcome JSValue);
  formatError_option : option (JSValue -> Outcome JSValue);
  extensions_option : option (RequestInfo Req -> Outcome JSValue);
  fieldResolver : JSValue;
  typeResolver : JSValue;
  graphiql : JSValue
}.

(** What the options, or a call of the options function, resolve to:
    an options object, or a value [v] that is null, undefined or not of
    type object. *)
Inductive OptionsResult : Type :=
| OptionsObject (o : OptionsData)
| NotAnObject (v : JSValue).

Inductive Options : Type :=
| StaticOptions (r : OptionsResult)
| OptionsFunction
    (f : Request -> Response -> option GraphQLParams -> Outcome OptionsResult).

(** [GraphiQLData] *)
Record GraphiQLData : Type := {
  gql_query : JSValue;
  gql_variables : JSValue;
  gql_operationName : JSValue;
  gql_result : option ExecutionResult
}.

(** Host functions. *)
Record Host : Type := {
  JSON_parse : JSONParser;
  (** [JSON.stringify(formattedResult, null, indent)] *)
  JSON_stringify : ExecutionResult -> Z -> string;
  renderGraphiQL : GraphiQLData -> JSValue -> string
}.

(** The response, the engine calls made so far, the console, and the
    handler's variables that are assigned inside the [try] block and read
    after it. *)
Record State : Type := {
  response : Response;
  trace : list (Event Req);
  console : list string;
  params : option GraphQLParams;
  showGraphiQL : bool;
  graphiqlOptions : JSValue;
  formatErrorFn : JSValue -> Outcome JSValue;
  pretty_flag : bool
}.

Definition with_response (f : Response -> Response) (st : State) : State :=
  {| response := f (response st); trace := trace st; console := console st;
     params := params st; showGraphiQL := showGraphiQL st;
     graphiqlOptions := graphiqlOptions st; formatErrorFn := formatErrorFn st;
     pretty_flag := pretty_flag st |}.

Definition with_trace (ev : Event Req) (st : State) : State :=
  {| response := response st; trace := (trace st ++ [ev])%list;
     console := console st; params := params st;
     showGraphiQL := showGraphiQL st; graphiqlOptions := graphiqlOptions st;
     formatErrorFn := formatErrorFn st; pretty_flag := pretty_flag st |}.

Definition with_console_lines (lines : list string) (st : State) : State :=
  {| response := response st; trace := trace st;
     console := (console st ++ lines)%list; params := params st;
     showGraphiQL := showGraphiQL st; graphiqlOptions := graphiqlOptions st;
     formatErrorFn := formatErrorFn st; pretty_flag := pretty_flag st |}.

Definition with_console (line : string) : State -> State :=
  with_console_lines [line].

Definition with_params (p : GraphQLParams) (st : State) : State :=
  {| response := response st; trace := trace st; console := console st;
     params := Some p; showGraphiQL := showGraphiQL st;
     graphiqlOptions := graphiqlOptions st; formatErrorFn := formatErrorFn st;
     pretty_flag := pretty_flag st |}.

Definition with_showGraphiQL (b : bool) (st : State) : State :=
  {| response := response st; trace := trace st; console := console st;
     params := params st; showGraphiQL := b;
     graphiqlOptions := graphiqlOptions st; formatErrorFn := formatErrorFn st;
     pretty_flag := pretty_flag st |}.

Definition with_graphiqlOptions (v : JSValue) (st : State) : State :=
  {| response := response st; trace := trace st; console := console st;
     params := params st; showGraphiQL := showGraphiQL st;
     graphiqlOptions := v; formatErrorFn := formatErrorFn st;
     pretty_flag := pretty_flag st |}.

Definition with_format (pretty : bool) (f : JSValue -> Outcome JSValue)
  (st : State) : State :=
  {| response := response st; trace := trace st; console := console st;
     params := params st; showGraphiQL := showGraphiQL st;
     graphiqlOptions := graphiqlOptions st; formatErrorFn := f;
     pretty_flag := pretty |}.

Definition modify (f : State -> State) : M State unit :=
  fun st => (Normal tt, f st).

Definition read {A : Type} (f : State -> A) : M State A :=
  fun st => (Normal (f st), st).

Definition call {A : Type} (ev : Event Req) (o : Outcome A) : M State A :=
  fun st => lift o (with_trace ev st).

(** *** Headers

    [response.setHeader(name, value)] refuses a name that is not an HTTP
    token and a value with a character other than tab, printable ASCII and
    U+0080 to U+00FF (in UTF-8 the bytes 128 to 195), throwing a
    [TypeError]; it keeps one value per name, names being compared without
    regard to case. *)

Definition between (lo hi n : nat) : bool := Nat.leb lo n && Nat.leb n hi.

(** A letter, a digit or one of [! # $ % & ' * + - . ^ _ ` | ~]. *)
Definition token_char (c : ascii) : bool :=
  let n := nat_of_ascii c in
  between 48 57 n || between 65 90 n || between 97 122 n
  || existsb (Nat.eqb n)
       [33; 35; 36; 37; 38; 39; 42; 43; 45; 46; 94; 95; 96; 124; 126]%nat.

Definition value_char (c : ascii) : bool :=
  let n := nat_of_ascii c in
  Nat.eqb n 9 || between 32 126 n || between 128 195 n.

Fixpoint all_chars (p : ascii -> bool) (s : string) : bool :=
  match s with
  | EmptyString => true
  | String c rest => p c && all_chars p rest
  end.

Definition valid_header_name (name : string) : bool :=
  negb (String.eqb name "") && all_chars token_char name.

Definition valid_header_value (value : string) : bool :=
  all_chars value_char value.

Definition lower_char (c : ascii) : ascii :=
  let n := nat_of_ascii c in
  if between 65 90 n then ascii_of_nat (n + 32) else c.

(** [name.toLowerCase()] of a header name *)
Fixpoint lower (s : string) : string :=
  match s with
  | EmptyString => EmptyString
  | String c rest => String (lower_char c) (lower rest)
  end.

Definition quoted (s : string) : string :=
  String "034"%char (s ++ String "034"%char EmptyString).

(** What [setHeader] throws for a name and a value, if it refuses them. *)
Definition header_refusal (name value : string) : option JSValue :=
  if negb (valid_header_name name) then
    Some (TypeError ("Header name must be a valid HTTP token ["
                     ++ quoted name ++ "]"))
  else if negb (valid_header_value value) then
    Some (TypeError ("Invalid character in header content ["
                     ++ quoted name ++ "]"))
  else None.

(** The headers with [key] set to [value]: a header of that name, whatever
    its case, is replaced where it stands. *)
Fixpoint set_header (key value : string) (hs : list (string * string))
  : list (string * string) :=
  match hs with
  | [] => [(key, value)]
  | (k, v) :: rest =>
      if String.eqb (lower key) (lower k) then (key, value) :: rest
      else (k, v) :: set_header key value rest
  end.

Definition with_header (key value : string) (r : Response) : Response :=
  {| statusCode := statusCode r; headers := set_header key value (headers r);
     has_json := has_json r; sent := sent r |}.

Definition set_statusCode (code : JSValue) (r : Response) : Response :=
  {| statusCode := code; headers := headers r; has_json := has_json r;
     sent := sent r |}.

Definition set_sent (s : Sent) (r : Response) : Response :=
  {| statusCode := statusCode r; headers := headers r; has_json := has_json r;
     sent := Some s |}.

(** [response.setHeader(key, value)] *)
Definition setHeader (key value : string) : M Response unit :=
  fun r =>
    match header_refusal key value with
    | Some e => (Throw e, r)
    | None => (Normal tt, with_header key value r)
    end.

(** [response.end(chunk)] *)
Definition end_ (chunk : string) : M Response unit :=
  fun r => (Normal tt, set_sent (SentChunk chunk) r).

(** [sendResponse(response, type, data)] *)
Definition sendResponse (type data : string) : M Response unit :=
  (let chunk := data in
   setHeader "Content-Type" (type ++ "; charset=utf-8") ;;;
   setHeader "Content-Length"
     (to_String (JSNumber (Z.of_nat (String.length chunk)))) ;;;
   end_ chunk)%js.

(** A statement on the response, as a statement of the handler. *)
Definition on_response {A : Type} (m : M Response A) : M State A :=
  fun st =>
    match m (response st) with
    | (c, r) => (c, with_response (fun _ => r) st)
    end.

(** [urlData.get(k)] *)
Fixpoint url_get (k : string) (entries : list (string * string)) : JSValue :=
  match entries with
  | [] => JSNull
  | (k', v) :: rest => if String.eqb k k' then JSString v else url_get k rest
  end.

(** [bodyData.k] *)
Definition body_get (k : string) (bodyData : list (string * JSValue)) : JSValue :=
  match lookup_field k bodyData with
  | Some v => v
  | None => JSUndefined
  end.

(** [getGraphQLParams(request)] *)
Definition getGraphQLParams_with (httpError : HttpError)
  (JSON_parse : JSONParser) (request : Request) : Outcome GraphQLParams :=
  let urlData := url_params request in
  match body_data request with
  | Throws e => Throws e
  | Returns bodyData =>
      let query :=
        string_or_null (coalesce (url_get "query" urlData)
                                 (body_get "query" bodyData)) in
      match parse_variables_with httpError JSON_parse
              (coalesce (url_get "variables" urlData)
                        (body_get "variables" bodyData)) with
      | Throws e => Throws e
      | Returns variables =>
          let operationName :=
            string_or_null (coalesce (url_get "operationName" urlData)
                                     (body_get "operationName" bodyData)) in
          let raw :=
            negb (nullish (url_get "raw" urlData))
            || match body_get "raw" bodyData with
               | JSUndefined => false
               | _ => true
               end in
          Returns {| query := query; variables := variables;
                     operationName := operationName; raw := JSBool raw |}
      end
  end.

Definition getGraphQLParams : JSONParser -> Request -> Outcome GraphQLParams :=
  getGraphQLParams_with httpError.

(** [canDisplayGraphiQL(request, params)] *)
Definition canDisplayGraphiQL (request : Request) (p : GraphQLParams) : bool :=
  negb (truthy (raw p))
  && match preferred_type request with
     | JSString s => String.eqb s "html"
     | _ => false
     end.

(** [v === 200] *)
Definition strict_equal_200 (v : JSValue) : bool :=
  match v with
  | JSNumber 200 => true
  | _ => false
  end.

(** [v !== false] *)
Definition not_false (v : JSValue) : bool :=
  match v with
  | JSBool false => false
  | _ => true
  end.

(** [canDisplayGraphiQL(request, params) && graphiql !== false] *)
Definition explorer_eligible (request : Request) (p : GraphQLParams)
  (graphiql : JSValue) : bool :=
  canDisplayGraphiQL request p && not_false graphiql.

(** [request.method !== 'GET' && request.method !== 'POST'] *)
Definition method_unsupported (request : Request) : bool :=
  negb (String.eqb (method request) "GET")
  && negb (String.eqb (method request) "POST").

(** [result.errors?.map(formatErrorFn)] *)
Fixpoint map_outcome (f : JSValue -> Outcome JSValue) (xs : list JSValue)
  : Outcome (list JSValue) :=
  match xs with
  | [] => Returns []
  | x :: rest =>
      match f x with
      | Throws e => Throws e
      | Returns y =>
          match map_outcome f rest with
          | Throws e => Throws e
          | Returns ys => Returns (y :: ys)
          end
      end
  end.

Definition map_errors (f : JSValue -> Outcome JSValue) (errors : JSValue)
  : Outcome JSValue :=
  match errors with
  | JSUndefined | JSNull => Returns JSUndefined
  | JSArray items =>
      match map_outcome f items with
      | Throws e => Throws e
      | Returns formatted => Returns (JSArray formatted)
      end
  | _ => Throws (TypeError "result.errors.map is not a function")
  end.

(** [for (const [key, value] of Object.entries(headers))
       response.setHeader(key, String(value))] *)
Fixpoint set_headers (entries : list (string * JSValue)) : M Response unit :=
  match entries with
  | [] => ret tt
  | (key, value) :: rest =>
      (setHeader key (to_String value) ;;; set_headers rest)%js
  end.

(** [typeof options === 'function' ? options(request, response, params)
                                    : options] *)
Definition options_result (options : Options) (request : Request)
  (response : Response) (requestParams : option GraphQLParams)
  : Outcome OptionsResult :=
  match options with
  | OptionsFunction f => f request response requestParams
  | StaticOptions r => Returns r
  end.

Section Handler.

Variable httpError : HttpError.
Variable G : GraphQL Req.
Variable H : Host.
Variable options : Options.
Variable request : Request.

Local Open Scope js_scope.

(** [respondWithGraphiQL(response, options, params, result)] *)
Definition respondWithGraphiQL (graphiqlOptions : JSValue)
  (params : option GraphQLParams) (result : option ExecutionResult)
  : M State unit :=
  let data :=
    {| gql_query :=
         match params with Some p => query p | None => JSUndefined end;
       gql_variables :=
         match params with Some p => variables p | None => JSUndefined end;
       gql_operationName :=
         match params with Some p => operationName p | None => JSUndefined end;
       gql_result := result |} in
  let payload := renderGraphiQL H data graphiqlOptions in
  on_response (sendResponse "text/html" payload).

(** [if (optionsResult.formatError) { console.warn(...) }] *)
Definition warn_deprecated (optionsData : OptionsData) : M State unit :=
  match formatError_option optionsData with
  | Some _ =>
      modify (with_console "`formatError` is deprecated and replaced by `customFormatErrorFn`. It will be removed in version 1.0.0.")
  | None => ret tt
  end.

(** [if (typeof graphiql !== 'boolean') { graphiqlOptions = graphiql }] *)
Definition assign_graphiqlOptions (graphiql : JSValue) : M State unit :=
  if negb (String.eqb (typeof graphiql) "boolean")
  then modify (with_graphiqlOptions graphiql)
  else ret tt.

(** What [warn_deprecated] adds to the console. *)
Definition deprecation_lines (optionsData : OptionsData) : list string :=
  match formatError_option optionsData with
  | Some _ =>
      ["`formatError` is deprecated and replaced by `customFormatErrorFn`. It will be removed in version 1.0.0."]
  | None => []
  end.

(** The value of [graphiqlOptions] after [assign_graphiqlOptions]. *)
Definition graphiqlOptions_after (graphiql current : JSValue) : JSValue :=
  if negb (String.eqb (typeof graphiql) "boolean") then graphiql else current.

(** [optionsData.context ?? request] *)
Definition context_of (optionsData : OptionsData) : ContextValue Req :=
  if nullish (context optionsData) then ContextRequest request
  else ContextOf (context optionsData).

(** [resolveOptions(requestParams)] *)
Definition resolveOptions (requestParams : option GraphQLParams)
  : M State OptionsData :=
  response_now <- read response ;;
  optionsResult <-
    lift (options_result options request response_now requestParams) ;;
  match optionsResult with
  | NotAnObject _ =>
      throw (Error "GraphQL middleware option function must return an options object or a promise which will be resolved to an options object.")
  | OptionsObject optionsData =>
      warn_deprecated optionsData ;;;
      ret optionsData
  end.

(** [pretty = optionsData.pretty ?? false;
     formatErrorFn = optionsData.customFormatErrorFn
                     ?? optionsData.formatError ?? formatErrorFn] *)
Definition assign_format (optionsData : OptionsData) : M State unit :=
  modify (fun st =>
    with_format (option_coalesce (pretty optionsData) false)
      (option_coalesce (customFormatErrorFn optionsData)
         (option_coalesce (formatError_option optionsData) (formatErrorFn st)))
      st).

(** The [try] block of [graphqlMiddleware]. *)
Definition pipeline_with : M State ExecutionResult :=
  params <-
    try_catch (lift (getGraphQLParams_with httpError (JSON_parse H) request))
      (fun error =>
         optionsData <- resolveOptions None ;;
         assign_format optionsData ;;;
         throw error) ;;
  modify (with_params params) ;;;
  optionsData <- resolveOptions (Some params) ;;
  let schema := schema optionsData in
  let rootValue := rootValue optionsData in
  let validationRules := option_coalesce (validationRules optionsData) [] in
  let fieldResolver := fieldResolver optionsData in
  let typeResolver := typeResolver optionsData in
  let graphiql := coalesce (graphiql optionsData) (JSBool false) in
  let extensionsFn := extensions_option optionsData in
  let context := context_of optionsData in
  let parseFn := option_coalesce (customParseFn optionsData) (parse G) in
  let executeFn := option_coalesce (customExecuteFn optionsData) (execute G) in
  let validateFn := option_coalesce (customValidateFn optionsData) (validate G) in
  assign_format optionsData ;;;
  if nullish schema then
    throw (httpError 500 "GraphQL middleware options must contain a schema." [])
  else
  if method_unsupported request then
    throw (httpError 405 "GraphQL only supports GET and POST requests."
             [("headers", JSObject [("Allow", JSString "GET, POST")])])
  else
  let query := query params in
  let variables := variables params in
  let operationName := operationName params in
  let show := explorer_eligible request params graphiql in
  modify (with_showGraphiQL show) ;;;
  assign_graphiqlOptions graphiql ;;;
  graphiqlOptions_now <- read graphiqlOptions ;;
  if nullish query then
    if show then
      respondWithGraphiQL graphiqlOptions_now None None ;;; return_
    else throw (httpError 400 "Must provide query string." [])
  else
  schemaValidationErrors <-
    call (CallValidateSchema schema) (validateSchema G schema) ;;
  if (0 <? Z.of_nat (List.length schemaValidationErrors)) then
    throw (httpError 500 "GraphQL schema validation error."
             [("graphqlErrors", JSArray schemaValidationErrors)])
  else
  let source := {| body := query; name := "GraphQL request" |} in
  documentAST <-
    try_catch (call (CallParse source) (parseFn source))
      (fun syntaxError =>
         throw (httpError 400 "GraphQL syntax error."
                  [("graphqlErrors", JSArray [syntaxError])])) ;;
  let rules := (specifiedRules G ++ validationRules)%list in
  validationErrors <-
    call (CallValidate schema documentAST rules)
         (validateFn schema documentAST rules) ;;
  if (0 <? Z.of_nat (List.length validationErrors)) then
    throw (httpError 400 "GraphQL validation error."
             [("graphqlErrors", JSArray validationErrors)])
  else
  (if String.eqb (method request) "GET" then
     operationAST <-
       call (CallGetOperationAST documentAST operationName)
            (getOperationAST G documentAST operationName) ;;
     match operationAST with
     | Some operation =>
         if negb (String.eqb (operation_string operation) "query") then
           if show then
             respondWithGraphiQL graphiqlOptions_now (Some params) None ;;;
             return_
           else
             throw (httpError 405
                      ("Can only perform a " ++ operation_string operation
                       ++ " operation from a POST request.")
                      [("headers", JSObject [("Allow", JSString "POST")])])
         else ret tt
     | None => ret tt
     end
   else ret tt) ;;;
  let args :=
    {| arg_schema := schema; arg_document := documentAST;
       arg_rootValue := rootValue; arg_contextValue := context;
       arg_variableValues := variables; arg_operationName := operationName;
       arg_fieldResolver := fieldResolver; arg_typeResolver := typeResolver |} in
  result <-
    try_catch (call (CallExecute args) (executeFn args))
      (fun contextError =>
         throw (httpError 400 "GraphQL execution context error."
                  [("graphqlErrors", JSArray [contextError])])) ;;
  match extensionsFn with
  | Some extensionsFn =>
      let info :=
        {| info_document := documentAST; info_variables := variables;
           info_operationName := operationName; info_result := result;
           info_context := context |} in
      extensions <- call (CallExtensions info) (extensionsFn info) ;;
      if negb (nullish extensions) then
        ret {| data := data result; errors := errors result;
               extensions := extensions |}
      else ret result
  | None => ret result
  end.

(** The [catch] block of [graphqlMiddleware]. *)
Definition on_error (error : JSValue) : M State ExecutionResult :=
  status <- lift (get_prop error "status") ;;
  modify (with_response (set_statusCode (coalesce status (JSNumber 500)))) ;;;
  headers <- lift (get_prop error "headers") ;;
  (if negb (nullish headers)
   then on_response (set_headers (Object_entries headers))
   else ret tt) ;;;
  graphqlErrors <- lift (get_prop error "graphqlErrors") ;;
  ret {| data := JSUndefined;
         errors := coalesce graphqlErrors (JSArray [error]);
         extensions := JSUndefined |}.

(** [result], once the [try]/[catch] statement has completed. *)
Definition boundary_with : M State ExecutionResult :=
  try_catch pipeline_with on_error.

(** [if (response.statusCode === 200 && result.data == null)
       response.statusCode = 500] *)
Definition status_without_data (result : ExecutionResult) : M State unit :=
  statusCode_now <- read (fun st => statusCode (response st)) ;;
  if strict_equal_200 statusCode_now && nullish (data result)
  then modify (with_response (set_statusCode (JSNumber 500)))
  else ret tt.

(** The statements after the [try]/[catch]: the formatted result and its
    delivery. *)
Definition respond (result : ExecutionResult) : M State unit :=
  status_without_data result ;;;
  formatErrorFn_now <- read formatErrorFn ;;
  formattedErrors <- lift (map_errors formatErrorFn_now (errors result)) ;;
  let formattedResult :=
    {| data := data result; errors := formattedErrors;
       extensions := extensions result |} in
  showGraphiQL_now <- read showGraphiQL ;;
  if showGraphiQL_now then
    graphiqlOptions_now <- read graphiqlOptions ;;
    params_now <- read params ;;
    respondWithGraphiQL graphiqlOptions_now params_now (Some formattedResult) ;;;
    return_
  else
  pretty_now <- read pretty_flag ;;
  has_json_now <- read (fun st => has_json (response st)) ;;
  if negb pretty_now && has_json_now then
    modify (with_response (set_sent (SentJson formattedResult)))
  else
    let payload :=
      JSON_stringify H formattedResult (if pretty_now then 2 else 0) in
    on_response (sendResponse "application/json" payload).

(** The body of [graphqlMiddleware]. *)
Definition middleware_body_with : M State unit :=
  result <- boundary_with ;;
  respond result.

(** The handler's variables as declared, before the [try] block. *)
Definition initial (response : Response) : State :=
  {| response := response; trace := []; console := []; params := None;
     showGraphiQL := false; graphiqlOptions := JSUndefined;
     formatErrorFn := formatError G; pretty_flag := false |}.

(** [graphqlMiddleware(request, response)]: [Throw e] is the promise
    rejected with [e]; the other completions are the promise resolved. *)
Definition graphqlMiddleware_with (response : Response)
  : Completion unit * State :=
  middleware_body_with (initial response).

End Handler.


(** The handler with the failures built by the repository's [httpError]. *)
Definition pipeline := pipeline_with httpError.
Definition boundary := boundary_with httpError.
Definition graphqlMiddleware := graphqlMiddleware_with httpError.

End HTTP.

(** ** Words of the specification *)

(** The step of the pipeline (numbered as in the specification's state
    machine) that an engine call belongs to. *)
Definition step_number {Req : Type} (ev : Event Req) : nat :=
  match ev with
  | CallValidateSchema _ => 4
  | CallParse _ => 5
  | CallValidate _ _ _ => 6
  | CallGetOperationAST _ _ => 7
  | CallExecute _ => 8
  | CallExtensions _ => 9
  end.

Fixpoint strictly_increasing (ns : list nat) : bool :=
  match ns with
  | [] => true
  | n :: rest =>
      match rest with
      | [] => true
      | m :: _ => Nat.ltb n m && strictly_increasing rest
      end
  end.

Definition is_execute {Req : Type} (ev : Event Req) : bool :=
  match ev with
  | CallExecute _ => true
  | _ => false
  end.

(** The executor was invoked. *)
Definition executor_invoked {Req : Type} (evs : list (Event Req)) : bool :=
  existsb is_execute evs.

Definition is_string (v : JSValue) : bool :=
  match v with
  | JSString _ => true
  | _ => false
  end.

(** An object in the sense of [typeof]. *)
Definition is_object (v : JSValue) : bool :=
  match v with
  | JSNull | JSArray _ | JSObject _ => true
  | _ => false
  end.

(** "the supplied value when that value is a string and null otherwise" *)
Definition string_else_null (v : JSValue) : JSValue :=
  match v with
  | JSString s => JSString s
  | _ => JSNull
  end.

(** A supplied [variables] value that is not a string of invalid JSON. *)
Definition decodable (JSON_parse : JSONParser) (v : JSValue) : bool :=
  match v with
  | JSString s =>
      match JSON_parse s with
      | Returns _ => true
      | Throws _ => false
      end
  | _ => true
  end.

(** The value an event supplies under a key. *)
Definition event_field (param : JSValue) (k : string) : JSValue :=
  match get_prop param k with
  | Returns v => v
  | Throws _ => JSUndefined
  end.

(** The value a request supplies under a key: the URL parameter if present,
    else the body field. *)
Definition request_field (request : HTTP.Request)
  (bodyData : list (string * JSValue)) (k : string) : JSValue :=
  coalesce (HTTP.url_get k (HTTP.url_params request)) (HTTP.body_get k bodyData).


(** ** A small engine and host, for concrete runs

    Documents are lists of operation definitions, each selecting one field
    of the root type; a schema lists the fields of its root types. *)

Module Sample.

Definition operation (kind name field : string) : JSValue :=
  JSObject [("kind", JSString "OperationDefinition");
            ("operation", JSString kind);
            ("name", JSString name);
            ("field", JSString field)].

Definition document (definitions : list JSValue) : JSValue :=
  JSObject [("kind", JSString "Document"); ("definitions", JSArray definitions)].

Definition hello_schema : JSValue :=
  JSObject [("query", JSArray [JSString "hello"]);
            ("mutation", JSArray [JSString "setHello"])].

Definition hello_root : JSValue :=
  JSObject [("hello", JSString "Hello world!")].

Definition syntaxError : JSValue :=
  JSObject [("name", JSString "GraphQLError");
            ("message", JSString "Syntax Error: Unexpected Name.")].

(** Recognises four documents. *)
Definition parse (source : Source) : Outcome JSValue :=
  match body source with
  | JSString s =>
      if String.eqb s "{ hello }" then
        Returns (document [operation "query" "" "hello"])
      else if String.eqb s "{ goodbye }" then
        Returns (document [operation "query" "" "goodbye"])
      else if String.eqb s "mutation { setHello }" then
        Returns (document [operation "mutation" "" "setHello"])
      else if String.eqb s "mutation { unknown }" then
        Returns (document [operation "mutation" "" "unknown"])
      else if String.eqb s "query A { hello } query B { hello }" then
        Returns (document [operation "query" "A" "hello";
                           operation "query" "B" "hello"])
      else Throws syntaxError
  | _ => Throws syntaxError
  end.

Definition definitions_of (doc : JSValue) : list JSValue :=
  match event_field doc "definitions" with
  | JSArray ds => ds
  | _ => []
  end.

Definition kind_of (op : JSValue) : option OperationTypeNode :=
  match event_field op "operation" with
  | JSString s =>
      if String.eqb s "query" then Some query_op
      else if String.eqb s "mutation" then Some mutation_op
      else if String.eqb s "subscription" then Some subscription_op
      else None
  | _ => None
  end.

Definition named (operationName : JSValue) (op : JSValue) : bool :=
  match operationName, event_field op "name" with
  | JSString n, JSString m => String.eqb n m
  | _, _ => false
  end.

(** The operation to run: the only one when no name is given, the one of
    that name otherwise. *)
Definition find_operation (doc operationName : JSValue) : option JSValue :=
  if nullish operationName then
    match definitions_of doc with
    | [op] => Some op
    | _ => None
    end
  else find (named operationName) (definitions_of doc).

Definition getOperationAST (doc operationName : JSValue)
  : Outcome (option OperationTypeNode) :=
  match find_operation doc operationName with
  | Some op => Returns (kind_of op)
  | None => Returns None
  end.

Definition has_field (schema : JSValue) (op : JSValue) : bool :=
  match event_field op "operation", event_field op "field" with
  | JSString kind, JSString field =>
      match event_field schema kind with
      | JSArray fields =>
          existsb (fun f => match f with
                            | JSString g => String.eqb field g
                            | _ => false
                            end) fields
      | _ => false
      end
  | _, _ => false
  end.

Definition validate (schema doc : JSValue) (rules : list ValidationRule)
  : Outcome (list JSValue) :=
  Returns
    (map (fun op =>
            JSObject [("message",
                       JSString ("Cannot query field " ++ to_String (event_field op "field")))])
         (filter (fun op => negb (has_field schema op)) (definitions_of doc))).

Definition validateSchema (schema : JSValue) : Outcome (list JSValue) :=
  match schema with
  | JSObject _ =>
      if nullish (event_field schema "query") then
        Returns [JSObject [("message", JSString "Query root type must be provided.")]]
      else Returns []
  | _ => Throws (Error "Expected value to be a GraphQL schema.")
  end.

Definition execute {Req : Type} (args : ExecutionArgs Req)
  : Outcome ExecutionResult :=
  match find_operation (arg_document args) (arg_operationName args) with
  | Some op =>
      let field := to_String (event_field op "field") in
      Returns {| data := JSObject [(field, event_field (arg_rootValue args) field)];
                 errors := JSUndefined; extensions := JSUndefined |}
  | None =>
      Returns {| data := JSUndefined;
                 errors := JSArray [JSObject [("message", JSString "Must provide operation name if query contains multiple operations.")]];
                 extensions := JSUndefined |}
  end.

(** Keeps the message. *)
Definition formatError (error : JSValue) : Outcome JSValue :=
  match get_prop error "message" with
  | Returns m => Returns (JSObject [("message", m)])
  | Throws _ => Throws (Error "Received null or undefined error.")
  end.

Definition engine (Req : Type) : GraphQL Req :=
  Build_GraphQL Req validateSchema parse validate execute formatError
    getOperationAST ["ExecutableDefinitionsRule"; "FieldsOnCorrectTypeRule"].

(** Decodes a few JSON texts. *)
Definition JSON_parse : JSONParser :=
  fun s =>
    if String.eqb s "null" then Returns JSNull
    else if String.eqb s "true" then Returns (JSBool true)
    else if String.eqb s "false" then Returns (JSBool false)
    else if String.eqb s "5" then Returns (JSNumber 5)
    else if String.eqb s "{}" then Returns (JSObject [])
    else Throws (JSObject [("name", JSString "SyntaxError");
                           ("message", JSString "Unexpected token in JSON")]).

Definition host : HTTP.Host :=
  {| HTTP.JSON_parse := JSON_parse;
     HTTP.JSON_stringify := fun _ _ => "{}";
     HTTP.renderGraphiQL := fun _ _ => "<!DOCTYPE html>" |}.

End Sample.

(** ** The steps of the pipeline, in the specification's words *)

(** [new Source(query, 'GraphQL request')] *)
Definition source_of (p : GraphQLParams) : Source :=
  {| body := query p; name := "GraphQL request" |}.

Definition wx_parseFn (G : GraphQL WX.Req) (o : WX.Options) :=
  option_coalesce (WX.customParseFn o) (parse G).

Definition wx_validateFn (G : GraphQL WX.Req) (o : WX.Options) :=
  option_coalesce (WX.customValidateFn o) (validate G).

Definition wx_rules (G : GraphQL WX.Req) (o : WX.Options) : list ValidationRule :=
  (specifiedRules G ++ option_coalesce (WX.validationRules o) [])%list.

Definition http_parseFn (G : GraphQL HTTP.Req) (o : HTTP.OptionsData) :=
  option_coalesce (HTTP.customParseFn o) (parse G).

Definition http_validateFn (G : GraphQL HTTP.Req) (o : HTTP.OptionsData) :=
  option_coalesce (HTTP.customValidateFn o) (validate G).

Definition http_rules (G : GraphQL HTTP.Req) (o : HTTP.OptionsData)
  : list ValidationRule :=
  (specifiedRules G ++ option_coalesce (HTTP.validationRules o) [])%list.

Definition http_executeFn (G : GraphQL HTTP.Req) (o : HTTP.OptionsData) :=
  option_coalesce (HTTP.customExecuteFn o) (execute G).

(** The arguments the handlers pass to the executor. *)
Definition wx_args (options : WX.Options) (p : GraphQLParams) (doc : JSValue)
  : ExecutionArgs WX.Req :=
  {| arg_schema := WX.schema options; arg_document := doc;
     arg_rootValue := WX.rootValue options;
     arg_contextValue := ContextOf (WX.context options);
     arg_variableValues := variables p; arg_operationName := operationName p;
     arg_fieldResolver := WX.fieldResolver options;
     arg_typeResolver := WX.typeResolver options |}.

Definition http_args (request : HTTP.Request) (o : HTTP.OptionsData)
  (p : GraphQLParams) (doc : JSValue) : ExecutionArgs HTTP.Req :=
  {| arg_schema := HTTP.schema o; arg_document := doc;
     arg_rootValue := HTTP.rootValue o;
     arg_contextValue := HTTP.context_of request o;
     arg_variableValues := variables p; arg_operationName := operationName p;
     arg_fieldResolver := HTTP.fieldResolver o;
     arg_typeResolver := HTTP.typeResolver o |}.

(** Cloud-function handler: every step before step [n] passed.  Steps 1 and
    3 are the presence of schema and query, 4 schema validation, 5 parsing,
    6 document validation. *)
Definition wx_steps_passed (G : GraphQL WX.Req) (J : JSONParser)
  (options : WX.Options) (n : nat) : Prop :=
  exists p,
    WX.getGraphQLParams J (WX.wxParams options) = Returns p /\
    nullish (WX.schema options) = false /\
    nullish (query p) = false /\
    ((4 < n)%nat -> validateSchema G (WX.schema options) = Returns []) /\
    ((5 < n)%nat ->
     exists doc,
       wx_parseFn G options (source_of p) = Returns doc /\
       ((6 < n)%nat ->
        wx_validateFn G options (WX.schema options) doc (wx_rules G options)
        = Returns [])).

(** "the requested operation is a query" *)
Definition operation_is_query (r : Outcome (option OperationTypeNode)) : Prop :=
  r = Returns (Some query_op).

(** The requested operation is a query, or no operation was singled out. *)
Definition operation_not_barred (r : Outcome (option OperationTypeNode)) : Prop :=
  r = Returns None \/ r = Returns (Some query_op).

(** HTTP handler: every step before step [n] passed, where step 7 on a GET
    request asks [guard] of what [getOperationAST] returned and step 8 is
    the execution. *)
Definition http_steps_passed
  (guard : Outcome (option OperationTypeNode) -> Prop)
  (G : GraphQL HTTP.Req) (H : HTTP.Host) (options : HTTP.Options)
  (request : HTTP.Request) (response : HTTP.Response) (n : nat) : Prop :=
  exists p o,
    HTTP.getGraphQLParams (HTTP.JSON_parse H) request = Returns p /\
    HTTP.options_result options request response (Some p)
    = Returns (HTTP.OptionsObject o) /\
    nullish (HTTP.schema o) = false /\
    (HTTP.method request = "GET" \/ HTTP.method request = "POST") /\
    nullish (query p) = false /\
    ((4 < n)%nat -> validateSchema G (HTTP.schema o) = Returns []) /\
    ((5 < n)%nat ->
     exists doc,
       http_parseFn G o (source_of p) = Returns doc /\
       ((6 < n)%nat ->
        http_validateFn G o (HTTP.schema o) doc (http_rules G o) = Returns [] /\
        ((7 < n)%nat -> HTTP.method request = "GET" ->
         guard (getOperationAST G doc (operationName p))) /\
        ((8 < n)%nat ->
         exists result,
           http_executeFn G o (http_args request o p doc) = Returns result))).

(** ** Failures, in the specification's words *)






(** The envelope of a failure [e] whose list of errors is [E]. *)
Definition failure_envelope (E : JSValue) : ExecutionResult :=
  {| data := JSUndefined; errors := E; extensions := JSUndefined |}.

(** The response with each of the entries set as a header. *)
Definition put_headers (entries : list (string * JSValue)) (r : HTTP.Response)
  : HTTP.Response :=
  fold_left (fun r kv => HTTP.with_header (fst kv) (to_String (snd kv)) r)
    entries r.

(** What setting the entries as headers throws: the refusal of the first
    entry that is refused. *)
Fixpoint first_refusal (entries : list (string * JSValue)) : option JSValue :=
  match entries with
  | [] => None
  | (key, value) :: rest =>
      match HTTP.header_refusal key (to_String value) with
      | Some t => Some t
      | None => first_refusal rest
      end
  end.

(** What the [catch] block throws over the headers a caught value
    carries. *)
Definition header_failure (error : JSValue) : option JSValue :=
  first_refusal (Object_entries (event_field error "headers")).



(** What the [catch] block of the HTTP handler leaves in the response when
    it refuses no header. *)
Definition error_response (error : JSValue) (r : HTTP.Response) : HTTP.Response :=
  let r :=
    HTTP.set_statusCode (coalesce (event_field error "status") (JSNumber 500)) r in
  if negb (nullish (event_field error "headers"))
  then put_headers (Object_entries (event_field error "headers")) r
  else r.

(** The response once [sendResponse(response, type, data)] has returned. *)
Definition delivered (type data : string) (r : HTTP.Response) : HTTP.Response :=
  HTTP.set_sent (HTTP.SentChunk data)
    (HTTP.with_header "Content-Length"
       (to_String (JSNumber (Z.of_nat (String.length data))))
       (HTTP.with_header "Content-Type" (type ++ "; charset=utf-8") r)).

(** The failures the handlers raise for a missing query, for variables that
    are not JSON, and for an operation barred from GET. *)
Definition missing_query_failure : JSValue :=
  httpError 400 "Must provide query string." [].

Definition invalid_variables_failure : JSValue :=
  httpError 400 "Variables are invalid JSON." [].

Definition barred_failure (op : OperationTypeNode) : JSValue :=
  httpError 405
    ("Can only perform a " ++ operation_string op
     ++ " operation from a POST request.")
    [("headers", JSObject [("Allow", JSString "POST")])].

Definition is_query_op (o : OperationTypeNode) : bool :=
  match o with
  | query_op => true
  | _ => false
  end.

(** A cloud-function event and an HTTP request, each supplying a query, an
    operation name that is not a string, and JSON-encoded variables. *)
Definition sample_event : JSValue :=
  JSObject [("query", JSString "{ hello }");
            ("operationName", JSNumber 7);
            ("variables", JSString "5")].

Definition sample_request : HTTP.Request :=
  {| HTTP.method := "POST";
     HTTP.url_params := [("variables", "5")];
     HTTP.body_data := Returns [("query", JSString "{ hello }");
                                ("operationName", JSBool true)];
     HTTP.preferred_type := JSString "json" |}.

Module Data.

Definition wx_options (event : JSValue) (schema : JSValue) : WX.Options :=
  {| WX.wxParams := event; WX.schema := schema; WX.context := JSUndefined;
     WX.rootValue := Sample.hello_root; WX.pretty := None;
     WX.validationRules := None; WX.customValidateFn := None;
     WX.customExecuteFn := None; WX.customFormatErrorFn := None;
     WX.customParseFn := None; WX.formatError_option := None;
     WX.fieldResolver := JSUndefined; WX.typeResolver := JSUndefined |}.

(** [customFormatErrorFn: (error) => ({ message: 'hidden' })] *)
Definition hide_message (error : JSValue) : Outcome JSValue :=
  Returns (JSObject [("message", JSString "hidden")]).

Definition wx_options_formatting (event : JSValue) : WX.Options :=
  {| WX.wxParams := event; WX.schema := Sample.hello_schema;
     WX.context := JSUndefined;
     WX.rootValue := Sample.hello_root; WX.pretty := None;
     WX.validationRules := None; WX.customValidateFn := None;
     WX.customExecuteFn := None; WX.customFormatErrorFn := Some hide_message;
     WX.customParseFn := None; WX.formatError_option := None;
     WX.fieldResolver := JSUndefined; WX.typeResolver := JSUndefined |}.


Definition hello_event : JSValue := JSObject [("query", JSString "{ hello }")].

Definition empty_event : JSValue := JSObject [].

Definition bad_variables_event : JSValue :=
  JSObject [("query", JSString "{ hello }"); ("variables", JSString "{")].

Definition http_options (schema graphiql : JSValue) : HTTP.OptionsData :=
  {| HTTP.schema := schema; HTTP.context := JSUndefined;
     HTTP.rootValue := Sample.hello_root; HTTP.pretty := None;
     HTTP.validationRules := None; HTTP.customValidateFn := None;
     HTTP.customExecuteFn := None; HTTP.customFormatErrorFn := None;
     HTTP.customParseFn := None; HTTP.formatError_option := None;
     HTTP.extensions_option := None; HTTP.fieldResolver := JSUndefined;
     HTTP.typeResolver := JSUndefined; HTTP.graphiql := graphiql |}.

Definition static_options (schema graphiql : JSValue) : HTTP.Options :=
  HTTP.StaticOptions (HTTP.OptionsObject (http_options schema graphiql)).


Definition options_hiding_messages : HTTP.Options :=
  HTTP.StaticOptions (HTTP.OptionsObject
    {| HTTP.schema := Sample.hello_schema; HTTP.context := JSUndefined;
       HTTP.rootValue := Sample.hello_root; HTTP.pretty := None;
       HTTP.validationRules := None; HTTP.customValidateFn := None;
       HTTP.customExecuteFn := None;
       HTTP.customFormatErrorFn := Some hide_message;
       HTTP.customParseFn := None; HTTP.formatError_option := None;
       HTTP.extensions_option := None; HTTP.fieldResolver := JSUndefined;
       HTTP.typeResolver := JSUndefined; HTTP.graphiql := JSUndefined |}).


(** [(request, response, params) => ({ schema, rootValue,
                                       context: { query: params.query } })] *)
Definition options_reading_params : HTTP.Options :=
  HTTP.OptionsFunction (fun _ _ requestParams =>
    match requestParams with
    | None =>
        Throws (TypeError "Cannot read properties of undefined (reading 'query')")
    | Some p =>
        Returns (HTTP.OptionsObject
          {| HTTP.schema := Sample.hello_schema;
             HTTP.context := JSObject [("query", query p)];
             HTTP.rootValue := Sample.hello_root; HTTP.pretty := None;
             HTTP.validationRules := None; HTTP.customValidateFn := None;
             HTTP.customExecuteFn := None; HTTP.customFormatErrorFn := None;
             HTTP.customParseFn := None; HTTP.formatError_option := None;
             HTTP.extensions_option := None; HTTP.fieldResolver := JSUndefined;
             HTTP.typeResolver := JSUndefined; HTTP.graphiql := JSUndefined |})
    end).


Definition request_of (method : string) (url_params : list (string * string))
  (bodyData : list (string * JSValue)) (preferred : string) : HTTP.Request :=
  {| HTTP.method := method; HTTP.url_params := url_params;
     HTTP.body_data := Returns bodyData;
     HTTP.preferred_type := JSString preferred |}.

Definition post_hello : HTTP.Request :=
  request_of "POST" [] [("query", JSString "{ hello }")] "json".

Definition post_without_query : HTTP.Request :=
  request_of "POST" [] [] "json".

Definition post_bad_variables : HTTP.Request :=
  request_of "POST" []
    [("query", JSString "{ hello }"); ("variables", JSString "{")] "json".

Definition post_two_operations : HTTP.Request :=
  request_of "POST" []
    [("query", JSString "query A { hello } query B { hello }")] "json".

Definition get_two_operations : HTTP.Request :=
  request_of "GET" [("query", "query A { hello } query B { hello }")] [] "json".

Definition get_mutation : HTTP.Request :=
  request_of "GET" [("query", "mutation { setHello }")] [] "json".

Definition get_mutation_html : HTTP.Request :=
  request_of "GET" [("query", "mutation { setHello }")] [] "html".

Definition get_unknown_mutation : HTTP.Request :=
  request_of "GET" [("query", "mutation { unknown }")] [] "json".

Definition response_200 : HTTP.Response :=
  {| HTTP.statusCode := JSNumber 200; HTTP.headers := [];
     HTTP.has_json := true; HTTP.sent := None |}.

End Data.

(** ** Further words for the handlers' remaining behaviour *)

(** The value of a response header, if set. *)
Fixpoint header_value (k : string) (hs : list (string * string))
  : option string :=
  match hs with
  | [] => None
  | (k', v) :: rest => if String.eqb k k' then Some v else header_value k rest
  end.

(** The last value given to a key in a list of details. *)
Definition last_detail (k : string) (details : list (string * JSValue))
  : option JSValue :=
  lookup_field k (rev details).

(** The formatter the options select: the custom one, else the legacy one,
    else the engine's. *)
Definition chosen_formatter (G : GraphQL HTTP.Req) (o : HTTP.OptionsData)
  : JSValue -> Outcome JSValue :=
  option_coalesce (HTTP.customFormatErrorFn o)
    (option_coalesce (HTTP.formatError_option o) (formatError G)).


Definition with_extensions (r : ExecutionResult) (x : JSValue)
  : ExecutionResult :=
  {| data := data r; errors := errors r; extensions := x |}.

(** The argument of the [extensions] callback. *)
Definition http_info (request : HTTP.Request) (o : HTTP.OptionsData)
  (p : GraphQLParams) (doc : JSValue) (result : ExecutionResult)
  : RequestInfo HTTP.Req :=
  {| info_document := doc; info_variables := variables p;
     info_operationName := operationName p; info_result := result;
     info_context := HTTP.context_of request o |}.

Definition wx_executeFn (G : GraphQL WX.Req) (o : WX.Options) :=
  option_coalesce (WX.customExecuteFn o) (execute G).

(** What [respondWithGraphiQL] renders. *)
Definition explorer_data (p : option GraphQLParams)
  (result : option ExecutionResult) : HTTP.GraphiQLData :=
  {| HTTP.gql_query :=
       match p with Some p => query p | None => JSUndefined end;
     HTTP.gql_variables :=
       match p with Some p => variables p | None => JSUndefined end;
     HTTP.gql_operationName :=
       match p with Some p => operationName p | None => JSUndefined end;
     HTTP.gql_result := result |}.

Definition is_get_operation_lookup {Req : Type} (ev : Event Req) : bool :=
  match ev with
  | CallGetOperationAST _ _ => true
  | _ => false
  end.

(** The extraction succeeded and schema and query are present. *)
Definition wx_ready (J : JSONParser) (options : WX.Options) (p : GraphQLParams)
  : Prop :=
  WX.getGraphQLParams J (WX.wxParams options) = Returns p /\
  nullish (WX.schema options) = false /\
  nullish (query p) = false.

(** The extraction succeeded, the options are an object, schema and query are
    present and the method is GET or POST. *)
Definition http_ready (H : HTTP.Host) (options : HTTP.Options)
  (request : HTTP.Request) (response : HTTP.Response)
  (p : GraphQLParams) (o : HTTP.OptionsData) : Prop :=
  HTTP.getGraphQLParams (HTTP.JSON_parse H) request = Returns p /\
  HTTP.options_result options request response (Some p)
  = Returns (HTTP.OptionsObject o) /\
  nullish (HTTP.schema o) = false /\
  HTTP.method_unsupported request = false /\
  nullish (query p) = false.

(** Schema validation, parsing and document validation passed. *)
Definition wx_validated (G : GraphQL WX.Req) (options : WX.Options)
  (p : GraphQLParams) (doc : JSValue) : Prop :=
  validateSchema G (WX.schema options) = Returns [] /\
  wx_parseFn G options (source_of p) = Returns doc /\
  wx_validateFn G options (WX.schema options) doc (wx_rules G options)
  = Returns [].

Definition http_validated (G : GraphQL HTTP.Req) (o : HTTP.OptionsData)
  (p : GraphQLParams) (doc : JSValue) : Prop :=
  validateSchema G (HTTP.schema o) = Returns [] /\
  http_parseFn G o (source_of p) = Returns doc /\
  http_validateFn G o (HTTP.schema o) doc (http_rules G o) = Returns [].

(** The engine calls up to document validation. *)
Definition wx_validation_calls (G : GraphQL WX.Req) (options : WX.Options)
  (p : GraphQLParams) (doc : JSValue) : list (Event WX.Req) :=
  [CallValidateSchema (WX.schema options); CallParse (source_of p);
   CallValidate (WX.schema options) doc (wx_rules G options)].

Definition http_validation_calls (G : GraphQL HTTP.Req) (o : HTTP.OptionsData)
  (p : GraphQLParams) (doc : JSValue) : list (Event HTTP.Req) :=
  [CallValidateSchema (HTTP.schema o); CallParse (source_of p);
   CallValidate (HTTP.schema o) doc (http_rules G o)].

(** The operation lookup of a GET request. *)
Definition lookup_calls (request : HTTP.Request) (p : GraphQLParams)
  (doc : JSValue) : list (Event HTTP.Req) :=
  if String.eqb (HTTP.method request) "GET"
  then [CallGetOperationAST doc (operationName p)] else [].

(** The request is not a GET, or its operation is not barred. *)
Definition guard_open (G : GraphQL HTTP.Req) (request : HTTP.Request)
  (p : GraphQLParams) (doc : JSValue) : Prop :=
  String.eqb (HTTP.method request) "GET" = false \/
  operation_not_barred (getOperationAST G doc (operationName p)).

(** The schema is present and the method is GET or POST. *)
Definition checks_passed (request : HTTP.Request) (o : HTTP.OptionsData) : bool :=
  negb (nullish (HTTP.schema o)) && negb (HTTP.method_unsupported request).

(** The failures for a missing schema, an unsupported method and options
    that are not an object. *)
Definition missing_schema_failure : JSValue :=
  httpError 500 "GraphQL middleware options must contain a schema." [].

Definition unsupported_method_failure : JSValue :=
  httpError 405 "GraphQL only supports GET and POST requests."
    [("headers", JSObject [("Allow", JSString "GET, POST")])].

Definition options_error : JSValue :=
  Error "GraphQL middleware option function must return an options object or a promise which will be resolved to an options object.".

(** *** The HTTP handler over any [httpError] *)








Module More.


(** Options of the HTTP handler with the given replacements. *)
Definition http_options
  (schema : JSValue)
  (executeFn : option (ExecutionArgs HTTP.Req -> Outcome ExecutionResult))
  (extensionsFn : option (RequestInfo HTTP.Req -> Outcome JSValue))
  (custom legacy : option (JSValue -> Outcome JSValue))
  (pretty : option bool) (graphiql : JSValue) : HTTP.OptionsData :=
  {| HTTP.schema := schema; HTTP.context := JSUndefined;
     HTTP.rootValue := Sample.hello_root; HTTP.pretty := pretty;
     HTTP.validationRules := Some ["NoIntrospectionRule"];
     HTTP.customValidateFn := None;
     HTTP.customExecuteFn := executeFn;
     HTTP.customFormatErrorFn := custom;
     HTTP.customParseFn := None; HTTP.formatError_option := legacy;
     HTTP.extensions_option := extensionsFn;
     HTTP.fieldResolver := JSUndefined;
     HTTP.typeResolver := JSUndefined; HTTP.graphiql := graphiql |}.

Definition static (o : HTTP.OptionsData) : HTTP.Options :=
  HTTP.StaticOptions (HTTP.OptionsObject o).

Definition plain : HTTP.OptionsData :=
  http_options Sample.hello_schema None None None None None JSUndefined.

(** [customExecuteFn: () => { throw new Error('no context') }] *)
Definition failing_execute {Req : Type} (args : ExecutionArgs Req)
  : Outcome ExecutionResult :=
  Throws (Error "no context").

(** [extensions: () => ({ runTime: 3 })] *)
Definition run_time (info : RequestInfo HTTP.Req) : Outcome JSValue :=
  Returns (JSObject [("runTime", JSNumber 3)]).

Definition wx_options
  (event schema : JSValue)
  (executeFn : option (ExecutionArgs WX.Req -> Outcome ExecutionResult))
  : WX.Options :=
  {| WX.wxParams := event; WX.schema := schema; WX.context := JSUndefined;
     WX.rootValue := Sample.hello_root; WX.pretty := None;
     WX.validationRules := Some ["NoIntrospectionRule"];
     WX.customValidateFn := None;
     WX.customExecuteFn := executeFn; WX.customFormatErrorFn := None;
     WX.customParseFn := None; WX.formatError_option := None;
     WX.fieldResolver := JSUndefined; WX.typeResolver := JSUndefined |}.

Definition event_of (query : string) : JSValue :=
  JSObject [("query", JSString query)].

Definition post (query : string) (preferred : string) : HTTP.Request :=
  Data.request_of "POST" [] [("query", JSString query)] preferred.

Definition put_hello : HTTP.Request :=
  Data.request_of "PUT" [] [("query", JSString "{ hello }")] "json".

(** A schema without a query root type. *)
Definition rootless_schema : JSValue := JSObject [].


End More.

(** * Properties *)

(** Unfolding the HTTP handler that builds its failures with the
    repository's [httpError]. *)
Ltac open_extractor :=
  unfold HTTP.getGraphQLParams, HTTP.getGraphQLParams_with;
  change (parse_variables_with httpError) with parse_variables.

Ltac open_boundary :=
  unfold HTTP.boundary, HTTP.boundary_with;
  change (HTTP.pipeline_with httpError) with HTTP.pipeline.

Ltac open_middleware :=
  unfold HTTP.graphqlMiddleware, HTTP.graphqlMiddleware_with,
    HTTP.middleware_body_with;
  change (HTTP.boundary_with httpError) with HTTP.boundary.

(** ** Values *)

Lemma lookup_set_field (k k' : string) (v : JSValue)
  (fs : list (string * JSValue)) :
  lookup_field k (set_field k' v fs)
  = if String.eqb k k' then Some v else lookup_field k fs.
Proof.
  induction fs as [| [k0 v0] fs IH]; simpl.
  - destruct (String.eqb k k'); reflexivity.
  - destruct (String.eqb_spec k' k0) as [-> | Hne]; simpl.
    + destruct (String.eqb k k0); reflexivity.
    + destruct (String.eqb_spec k k0) as [-> | Hne2].
      * destruct (String.eqb_spec k0 k'); [congruence | reflexivity].
      * exact IH.
Qed.

Lemma lookup_app (k : string) (a b : list (string * JSValue)) :
  lookup_field k (a ++ b)
  = match lookup_field k a with
    | Some v => Some v
    | None => lookup_field k b
    end.
Proof.
  induction a as [| [k0 v0] a IH]; simpl; [reflexivity |].
  destruct (String.eqb k k0); [reflexivity | exact IH].
Qed.

(** In [{ ...target, ...source }] the last value the source gives to a key
    wins over the target's. *)
Lemma lookup_spread (k : string) (source target : list (string * JSValue)) :
  lookup_field k (spread target source)
  = match last_detail k source with
    | Some v => Some v
    | None => lookup_field k target
    end.
Proof.
  unfold spread, last_detail. revert target.
  induction source as [| [k0 v0] source IH]; intro target; simpl.
  - reflexivity.
  - rewrite IH, lookup_app, lookup_set_field. simpl.
    destruct (lookup_field k (rev source)); [reflexivity |].
    destruct (String.eqb k k0); reflexivity.
Qed.

Lemma typeof_string (v : JSValue) :
  String.eqb (typeof v) "string" = is_string v.
Proof. destruct v; reflexivity. Qed.

Lemma typeof_object (v : JSValue) :
  String.eqb (typeof v) "object" = is_object v.
Proof. destruct v; reflexivity. Qed.

Lemma string_or_null_spec (v : JSValue) :
  string_or_null v = string_else_null v.
Proof. destruct v; reflexivity. Qed.

Lemma get_prop_event_field (param : JSValue) (k : string) :
  nullish param = false -> get_prop param k = Returns (event_field param k).
Proof.
  unfold event_field; destruct param; simpl; intro H;
    try discriminate; reflexivity.
Qed.

Lemma event_field_string_not_nullish (param : JSValue) (k s : string) :
  event_field param k = JSString s -> nullish param = false.
Proof. destruct param; simpl; intro H; try discriminate; reflexivity. Qed.

Lemma length_pos_nil {A : Type} (l : list A) :
  (0 <? Z.of_nat (List.length l)) = false -> l = [].
Proof.
  destruct l as [| x l]; simpl; auto.
  intro H. apply Z.ltb_ge in H. lia.
Qed.


(** ** Parameter extraction *)

Lemma parse_variables_decodable (J : JSONParser) (v : JSValue) :
  decodable J v = true ->
  exists d, parse_variables J v = Returns d /\
    (is_string v = false -> is_object v = false -> d = JSNull) /\
    (forall s, v = JSString s -> J s = Returns d).
Proof.
  destruct v; simpl; intro H;
    try (eexists; split; [reflexivity |]; split; intros; congruence).
  destruct (J s) eqn:E; try discriminate.
  eexists; split; [reflexivity |]; split; intros; congruence.
Qed.

Lemma parse_variables_invalid (J : JSONParser) (s : string) (e : JSValue) :
  J s = Throws e ->
  parse_variables J (JSString s)
  = Throws (httpError 400 "Variables are invalid JSON." []).
Proof. intro E; simpl; rewrite E; reflexivity. Qed.

(** C8. The extracted query is the supplied query when that is a string and
    null otherwise, and so is the operation name; supplied variables that are
    neither a string nor an object become null.  This holds of the event
    extractor for every event that is not null or undefined, and of the
    request extractor for every request whose body was parsed; in both, the
    extraction succeeds unless the variables are a string of invalid JSON. *)
Theorem C8_extraction_coerces_fields (J : JSONParser) :
  (forall param : JSValue,
     nullish param = false ->
     decodable J (event_field param "variables") = true ->
     exists p, WX.getGraphQLParams J param = Returns p /\
       query p = string_else_null (event_field param "query") /\
       operationName p = string_else_null (event_field param "operationName") /\
       (is_string (event_field param "variables") = false ->
        is_object (event_field param "variables") = false ->
        variables p = JSNull))
  /\
  (forall (request : HTTP.Request) (bodyData : list (string * JSValue)),
     HTTP.body_data request = Returns bodyData ->
     decodable J (request_field request bodyData "variables") = true ->
     exists p, HTTP.getGraphQLParams J request = Returns p /\
       query p = string_else_null (request_field request bodyData "query") /\
       operationName p
       = string_else_null (request_field request bodyData "operationName") /\
       (is_string (request_field request bodyData "variables") = false ->
        is_object (request_field request bodyData "variables") = false ->
        variables p = JSNull)).
Proof.
  split.
  - intros param Hn Hd. unfold WX.getGraphQLParams.
    rewrite !(get_prop_event_field param _ Hn).
    destruct (parse_variables_decodable J _ Hd) as (d & Hp & Hnull & _).
    rewrite Hp. eexists; split; [reflexivity |]. simpl.
    rewrite !string_or_null_spec. auto.
  - intros request bodyData Hb Hd. open_extractor.
    rewrite Hb. fold (request_field request bodyData "query").
    fold (request_field request bodyData "variables").
    fold (request_field request bodyData "operationName").
    destruct (parse_variables_decodable J _ Hd) as (d & Hp & Hnull & _).
    rewrite Hp. eexists; split; [reflexivity |]. simpl.
    rewrite !string_or_null_spec. auto.
Qed.

Lemma C8_witness :
  (nullish sample_event = false /\
   decodable Sample.JSON_parse (event_field sample_event "variables") = true /\
   exists p, WX.getGraphQLParams Sample.JSON_parse sample_event = Returns p /\
     query p = JSString "{ hello }" /\ operationName p = JSNull)
  /\
  (decodable Sample.JSON_parse
     (request_field sample_request
        [("query", JSString "{ hello }"); ("operationName", JSBool true)]
        "variables") = true /\
   exists p, HTTP.getGraphQLParams Sample.JSON_parse sample_request = Returns p /\
     query p = JSString "{ hello }" /\ operationName p = JSNull).
Proof.
  destruct (C8_extraction_coerces_fields Sample.JSON_parse) as [Hwx Hhttp].
  split.
  - split; [reflexivity | split; [reflexivity |]].
    destruct (Hwx sample_event eq_refl eq_refl) as (p & Hp & Hq & Ho & _).
    exists p. auto.
  - split; [reflexivity |].
    destruct (Hhttp sample_request _ eq_refl eq_refl) as (p & Hp & Hq & Ho & _).
    exists p. auto.
Defined.

(** C10. When the supplied variables are a string of valid JSON, the
    extracted variables are the decoded value whatever its type: the rule
    that turns non-objects into null is not applied to it. *)
Theorem C10_decoded_variables_kept (J : JSONParser) :
  (forall (param : JSValue) (s : string) (d : JSValue),
     event_field param "variables" = JSString s ->
     J s = Returns d ->
     exists p, WX.getGraphQLParams J param = Returns p /\ variables p = d)
  /\
  (forall (request : HTTP.Request) (bodyData : list (string * JSValue))
          (s : string) (d : JSValue),
     HTTP.body_data request = Returns bodyData ->
     request_field request bodyData "variables" = JSString s ->
     J s = Returns d ->
     exists p, HTTP.getGraphQLParams J request = Returns p /\ variables p = d).
Proof.
  split.
  - intros param s d Hv Hd.
    pose proof (event_field_string_not_nullish _ _ _ Hv) as Hn.
    unfold WX.getGraphQLParams.
    rewrite !(get_prop_event_field param _ Hn), Hv. simpl. rewrite Hd.
    eexists; split; reflexivity.
  - intros request bodyData s d Hb Hv Hd. open_extractor.
    rewrite Hb. fold (request_field request bodyData "variables").
    rewrite Hv. simpl. rewrite Hd. eexists; split; reflexivity.
Qed.

Lemma C10_witness :
  (event_field sample_event "variables" = JSString "5" /\
   Sample.JSON_parse "5" = Returns (JSNumber 5) /\
   exists p, WX.getGraphQLParams Sample.JSON_parse sample_event = Returns p /\
     variables p = JSNumber 5)
  /\
  (exists p, HTTP.getGraphQLParams Sample.JSON_parse sample_request = Returns p /\
     variables p = JSNumber 5).
Proof.
  destruct (C10_decoded_variables_kept Sample.JSON_parse) as [Hwx Hhttp].
  split.
  - split; [reflexivity | split; [reflexivity |]].
    exact (Hwx sample_event "5" (JSNumber 5) eq_refl eq_refl).
  - exact (Hhttp sample_request _ "5" (JSNumber 5) eq_refl eq_refl eq_refl).
Defined.




(** ** Running the handlers symbolically *)

Ltac unfold_monad :=
  unfold bind, ret, throw, try_catch, lift, return_ in *.

(** The innermost scrutinee of a [match] is split first. *)
Ltac destruct_inner x :=
  lazymatch x with
  | context [match ?y with _ => _ end] => destruct_inner y
  | _ => destruct x eqn:?
  end.

Ltac case_step :=
  match goal with
  | |- context [match ?x with _ => _ end] => destruct_inner x
  end.

Ltac in_cases :=
  repeat match goal with
  | H : In _ (_ :: _) |- _ => destruct H as [H | H]; [subst |]
  | H : In _ [] |- _ => destruct H
  end.

Ltac simpl_state :=
  cbn [fst snd app Z.ltb Z.compare Z.of_nat Datatypes.length
       HTTP.response HTTP.trace HTTP.console HTTP.params HTTP.showGraphiQL
       HTTP.graphiqlOptions HTTP.formatErrorFn HTTP.pretty_flag
       HTTP.with_response HTTP.with_trace HTTP.with_console_lines
       HTTP.with_params HTTP.with_showGraphiQL HTTP.with_graphiqlOptions
       HTTP.with_format] in *.

Ltac unfold_http :=
  unfold HTTP.pipeline, HTTP.pipeline_with, HTTP.call, HTTP.resolveOptions,
    HTTP.assign_format, HTTP.modify, HTTP.read, HTTP.initial in *;
  change (HTTP.getGraphQLParams_with httpError) with HTTP.getGraphQLParams in *.

Ltac unfold_respond :=
  unfold HTTP.respond, HTTP.status_without_data, HTTP.modify, HTTP.read.

(** *** Sending never fails in the handler *)

Lemma digits_valid (d : Decimal.uint) :
  HTTP.valid_header_value (NilEmpty.string_of_uint d) = true.
Proof. induction d; simpl; auto. Qed.

Lemma content_length_valid (n : nat) :
  HTTP.valid_header_value (to_String (JSNumber (Z.of_nat n))) = true.
Proof.
  unfold to_String, string_of_Z, NilZero.string_of_int.
  destruct (Z.of_nat n) eqn:Hn; simpl.
  - reflexivity.
  - unfold NilZero.string_of_uint.
    destruct (Pos.to_uint p) eqn:Hp; try apply digits_valid. reflexivity.
  - pose proof (Nat2Z.is_nonneg n). lia.
Qed.

Lemma token_Content_Length : HTTP.valid_header_name "Content-Length" = true.
Proof. reflexivity. Qed.

Lemma sendResponse_run (type data : string) (r : HTTP.Response) :
  HTTP.valid_header_value (type ++ "; charset=utf-8") = true ->
  HTTP.sendResponse type data r = (Normal tt, delivered type data r).
Proof.
  intro Hv. unfold HTTP.sendResponse, HTTP.setHeader, HTTP.end_, bind.
  cbv zeta. unfold HTTP.header_refusal at 1.
  rewrite Hv. cbn [HTTP.valid_header_name negb].
  change (negb (HTTP.valid_header_name "Content-Type")) with false.
  cbv iota. unfold HTTP.header_refusal.
  rewrite token_Content_Length, content_length_valid. reflexivity.
Qed.

Lemma send_eq (type payload : string) (st : HTTP.State) :
  HTTP.valid_header_value (type ++ "; charset=utf-8") = true ->
  HTTP.on_response (HTTP.sendResponse type payload) st
  = (Normal tt, HTTP.with_response (delivered type payload) st).
Proof.
  intro Hv. unfold HTTP.on_response. rewrite (sendResponse_run _ _ _ Hv).
  reflexivity.
Qed.

Lemma send_json_eq (payload : string) (st : HTTP.State) :
  HTTP.on_response (HTTP.sendResponse "application/json" payload) st
  = (Normal tt, HTTP.with_response (delivered "application/json" payload) st).
Proof. apply send_eq. reflexivity. Qed.

Lemma respondWithGraphiQL_eq (H : HTTP.Host) (graphiqlOptions : JSValue)
  (params : option GraphQLParams) (result : option ExecutionResult)
  (st : HTTP.State) :
  HTTP.respondWithGraphiQL H graphiqlOptions params result st
  = (Normal tt,
     HTTP.with_response
       (delivered "text/html"
          (HTTP.renderGraphiQL H
             {| HTTP.gql_query :=
                  match params with Some p => query p | None => JSUndefined end;
                HTTP.gql_variables :=
                  match params with
                  | Some p => variables p
                  | None => JSUndefined
                  end;
                HTTP.gql_operationName :=
                  match params with
                  | Some p => operationName p
                  | None => JSUndefined
                  end;
                HTTP.gql_result := result |} graphiqlOptions)) st).
Proof. unfold HTTP.respondWithGraphiQL. cbv zeta. apply send_eq. reflexivity. Qed.

Lemma warn_deprecated_eq (o : HTTP.OptionsData) (st : HTTP.State) :
  HTTP.warn_deprecated o st
  = (Normal tt, HTTP.with_console_lines (HTTP.deprecation_lines o) st).
Proof.
  unfold HTTP.warn_deprecated, HTTP.deprecation_lines.
  destruct st, (HTTP.formatError_option o); cbn.
  - reflexivity.
  - unfold HTTP.with_console_lines; cbn. rewrite app_nil_r. reflexivity.
Qed.

Lemma assign_graphiqlOptions_eq (g : JSValue) (st : HTTP.State) :
  HTTP.assign_graphiqlOptions g st
  = (Normal tt,
     HTTP.with_graphiqlOptions
       (HTTP.graphiqlOptions_after g (HTTP.graphiqlOptions st)) st).
Proof.
  unfold HTTP.assign_graphiqlOptions, HTTP.graphiqlOptions_after.
  destruct st, (negb (String.eqb (typeof g) "boolean")); reflexivity.
Qed.

(** One statement of the HTTP pipeline: the two assignments that cannot fail
    are rewritten, any other statement is split on its outcome. *)
Ltac run_step :=
  first [ rewrite warn_deprecated_eq
        | rewrite assign_graphiqlOptions_eq
        | rewrite respondWithGraphiQL_eq
        | rewrite send_json_eq
        | case_step ];
  simpl_state.

(** The same, following the outcomes that the hypotheses fix. *)
Ltac run_known :=
  first [ rewrite warn_deprecated_eq
        | rewrite assign_graphiqlOptions_eq
        | rewrite respondWithGraphiQL_eq
        | rewrite send_json_eq
        | match goal with
          | Hk : ?x = _ |- context [match ?x with _ => _ end] => rewrite Hk
          end
        | case_step ];
  simpl_state.

Ltac unfold_words :=
  unfold wx_ready, http_ready, wx_validated, http_validated,
    wx_validation_calls, http_validation_calls, lookup_calls, guard_open,
    wx_parseFn, wx_validateFn, wx_executeFn, wx_rules, wx_args,
    http_parseFn, http_validateFn, http_executeFn, http_rules, http_args,
    http_info, source_of, operation_not_barred, missing_schema_failure,
    unsupported_method_failure, options_error in *.

Ltac split_hyps :=
  repeat match goal with
  | Hc : _ /\ _ |- _ => destruct Hc
  end.

(** The cloud-function handler, following the outcomes the hypotheses fix. *)
Ltac run_wx :=
  unfold WX.graphqlWXServer, WX.pipeline, WX.on_error, WX.call;
  unfold_monad; cbv zeta;
  repeat (match goal with
          | Hk : ?x = _ |- context [match ?x with _ => _ end] => rewrite Hk
          end; cbn [fst snd app Z.ltb Z.compare Z.of_nat Datatypes.length]).

Ltac run_pipeline :=
  unfold_http; unfold_monad; cbv zeta; repeat run_known.

Ltac run_http := open_boundary; run_pipeline.

Ltac open_guard Hg := destruct Hg as [Hg | [Hg | Hg]].

Ltac absurd_branch :=
  solve [ congruence
        | match goal with
          | Hq : negb _ = _ |- _ => discriminate Hq
          end ].

Lemma method_supported (request : HTTP.Request) :
  HTTP.method_unsupported request = false ->
  HTTP.method request = "GET" \/ HTTP.method request = "POST".
Proof.
  unfold HTTP.method_unsupported. intro Hm.
  destruct (String.eqb_spec (HTTP.method request) "GET"); [auto |].
  destruct (String.eqb_spec (HTTP.method request) "POST"); [auto |].
  discriminate.
Qed.

Lemma method_GET_supported (request : HTTP.Request) :
  HTTP.method request = "GET" -> HTTP.method_unsupported request = false.
Proof. unfold HTTP.method_unsupported. intro Hm; rewrite Hm; reflexivity. Qed.

Lemma operation_query (op : OperationTypeNode) :
  negb (String.eqb (operation_string op) "query") = false -> op = query_op.
Proof. destruct op; simpl; intro; try discriminate; reflexivity. Qed.

Lemma is_query_op_string (op : OperationTypeNode) :
  is_query_op op = false ->
  negb (String.eqb (operation_string op) "query") = true.
Proof. destruct op; simpl; intro; try discriminate; reflexivity. Qed.

(** ** The catch block and the response phase of the HTTP handler *)

(** The loop over the headers of a caught value stops at the first header
    that is refused; it touches the headers only. *)
Lemma set_headers_run (entries : list (string * JSValue)) (r : HTTP.Response) :
  fst (HTTP.set_headers entries r)
  = match first_refusal entries with
    | None => Normal tt
    | Some t => Throw t
    end
  /\ (first_refusal entries = None ->
      snd (HTTP.set_headers entries r) = put_headers entries r)
  /\ HTTP.statusCode (snd (HTTP.set_headers entries r)) = HTTP.statusCode r
  /\ HTTP.has_json (snd (HTTP.set_headers entries r)) = HTTP.has_json r
  /\ HTTP.sent (snd (HTTP.set_headers entries r)) = HTTP.sent r.
Proof.
  revert r. induction entries as [| [key value] entries IH]; intro r.
  - simpl. repeat split; reflexivity.
  - simpl. unfold bind, HTTP.setHeader.
    destruct (HTTP.header_refusal key (to_String value)) as [t |].
    + simpl. repeat split; try reflexivity. discriminate.
    + destruct (IH (HTTP.with_header key (to_String value) r))
        as (Hf & Hs & Hc & Hj & Hsent).
      destruct (HTTP.set_headers entries
                  (HTTP.with_header key (to_String value) r)) as [c r'].
      cbn [fst snd] in *.
      destruct c as [[] | t |]; cbn [fst snd];
        repeat split; auto;
        destruct (first_refusal entries); try discriminate; auto.
Qed.

Lemma set_headers_accepted (entries : list (string * JSValue))
  (r : HTTP.Response) :
  first_refusal entries = None ->
  HTTP.set_headers entries r = (Normal tt, put_headers entries r).
Proof.
  intro Hn. destruct (set_headers_run entries r) as (Hf & Hs & _).
  rewrite Hn in Hf. specialize (Hs Hn).
  destruct (HTTP.set_headers entries r) as [c r']. cbn [fst snd] in *.
  subst. reflexivity.
Qed.

Lemma on_error_eq (e : JSValue) (st : HTTP.State) :
  nullish e = false ->
  header_failure e = None ->
  HTTP.on_error e st
  = (Normal (failure_envelope
               (coalesce (event_field e "graphqlErrors") (JSArray [e]))),
     HTTP.with_response (error_response e) st).
Proof.
  intros Hn Hh. unfold HTTP.on_error, HTTP.modify, error_response.
  unfold_monad. rewrite !(get_prop_event_field e _ Hn).
  unfold header_failure in Hh.
  destruct (nullish (event_field e "headers")); cbn [negb].
  - destruct st; reflexivity.
  - unfold HTTP.on_response. cbn [HTTP.response HTTP.with_response].
    rewrite (set_headers_accepted _ _ Hh). destruct st; reflexivity.
Qed.

(** A caught value with a header that is refused: the [catch] block throws
    the refusal, having set the status code. *)
Lemma on_error_refused (e t : JSValue) (st : HTTP.State) :
  nullish e = false ->
  header_failure e = Some t ->
  exists r,
    HTTP.on_error e st = (Throw t, HTTP.with_response (fun _ => r) st)
    /\ HTTP.statusCode r = coalesce (event_field e "status") (JSNumber 500)
    /\ HTTP.has_json r = HTTP.has_json (HTTP.response st)
    /\ HTTP.sent r = HTTP.sent (HTTP.response st).
Proof.
  intros Hn Hh. unfold HTTP.on_error, HTTP.modify.
  unfold_monad. rewrite !(get_prop_event_field e _ Hn).
  unfold header_failure in Hh.
  destruct (nullish (event_field e "headers")) eqn:Hnull; cbn [negb].
  - destruct (event_field e "headers"); try discriminate Hnull;
      discriminate Hh.
  - unfold HTTP.on_response. cbn [HTTP.response HTTP.with_response].
    destruct (set_headers_run (Object_entries (event_field e "headers"))
                (HTTP.set_statusCode
                   (coalesce (event_field e "status") (JSNumber 500))
                   (HTTP.response st))) as (Hf & _ & Hc & Hj & Hs).
    rewrite Hh in Hf.
    destruct (HTTP.set_headers (Object_entries (event_field e "headers"))
                (HTTP.set_statusCode
                   (coalesce (event_field e "status") (JSNumber 500))
                   (HTTP.response st))) as [c r].
    cbn [fst snd] in *. subst c. exists r.
    split; [destruct st; reflexivity |]. auto.
Qed.

Lemma on_error_nullish (e : JSValue) (st : HTTP.State) :
  nullish e = true -> exists t, HTTP.on_error e st = (Throw t, st).
Proof.
  intro Hn. unfold HTTP.on_error. unfold_monad.
  destruct e; try discriminate; simpl; eauto.
Qed.

(** The three ways the [catch] block ends. *)
Lemma on_error_cases (e : JSValue) (st : HTTP.State) :
  (nullish e = true /\ exists t, HTTP.on_error e st = (Throw t, st))
  \/ (nullish e = false /\ header_failure e = None
      /\ HTTP.on_error e st
         = (Normal (failure_envelope
                      (coalesce (event_field e "graphqlErrors") (JSArray [e]))),
            HTTP.with_response (error_response e) st))
  \/ (nullish e = false
      /\ exists t r,
           header_failure e = Some t
           /\ HTTP.on_error e st = (Throw t, HTTP.with_response (fun _ => r) st)
           /\ HTTP.statusCode r
              = coalesce (event_field e "status") (JSNumber 500)
           /\ HTTP.has_json r = HTTP.has_json (HTTP.response st)
           /\ HTTP.sent r = HTTP.sent (HTTP.response st)).
Proof.
  destruct (nullish e) eqn:Hn.
  - left. split; [reflexivity | exact (on_error_nullish e st Hn)].
  - right. destruct (header_failure e) as [t |] eqn:Hh.
    + right. split; [reflexivity |].
      destruct (on_error_refused e t st Hn Hh) as (r & Hr).
      exists t, r. split; [reflexivity | exact Hr].
    + left. split; [reflexivity | split; [reflexivity |]].
      exact (on_error_eq e st Hn Hh).
Qed.

(** The [catch] block writes to the response only. *)
Lemma on_error_frame (e : JSValue) (st : HTTP.State) :
  exists f, snd (HTTP.on_error e st) = HTTP.with_response f st.
Proof.
  destruct (on_error_cases e st)
    as [(_ & t & Hr) | [(_ & _ & Hr) | (_ & t & r & _ & Hr & _)]];
    rewrite Hr; cbn [snd].
  - exists (fun r => r). destruct st; reflexivity.
  - eexists; reflexivity.
  - eexists; reflexivity.
Qed.

Lemma on_error_trace (e : JSValue) (st : HTTP.State) :
  HTTP.trace (snd (HTTP.on_error e st)) = HTTP.trace st.
Proof.
  destruct (on_error_frame e st) as [f Hf]. rewrite Hf. reflexivity.
Qed.

Lemma boundary_trace G H options request st :
  HTTP.trace (snd (HTTP.boundary G H options request st))
  = HTTP.trace (snd (HTTP.pipeline G H options request st)).
Proof.
  open_boundary; unfold try_catch.
  destruct (HTTP.pipeline G H options request st) as [[r | e |] st1];
    simpl; auto.
  apply on_error_trace.
Qed.

Lemma respond_trace H result st :
  HTTP.trace (snd (HTTP.respond H result st)) = HTTP.trace st.
Proof.
  unfold_respond. unfold_monad.
  repeat run_step; reflexivity.
Qed.

(** The engine calls of a request are those of its [try] block. *)
Lemma middleware_trace G H options request response :
  HTTP.trace (snd (HTTP.graphqlMiddleware G H options request response))
  = HTTP.trace
      (snd (HTTP.pipeline G H options request (HTTP.initial G response))).
Proof.
  open_middleware; unfold bind.
  rewrite <- boundary_trace.
  destruct (HTTP.boundary G H options request (HTTP.initial G response))
    as [[r | e |] st1]; simpl; auto.
  apply respond_trace.
Qed.

Lemma set_header_In (key value : string) (hs : list (string * string)) :
  In (key, value) (HTTP.set_header key value hs).
Proof.
  induction hs as [| [k v] hs IH]; simpl; [auto |].
  destruct (String.eqb (HTTP.lower key) (HTTP.lower k)); simpl; auto.
Qed.

(** Setting a header keeps every header of another name, case apart. *)
Lemma set_header_keeps (key value k v : string) (hs : list (string * string)) :
  HTTP.lower k <> HTTP.lower key ->
  In (k, v) hs -> In (k, v) (HTTP.set_header key value hs).
Proof.
  intro Hne. induction hs as [| [k' v'] hs IH]; simpl; [auto |].
  intros [Hx | Hx].
  - inversion Hx; subst.
    destruct (String.eqb_spec (HTTP.lower key) (HTTP.lower k));
      [congruence | simpl; auto].
  - destruct (String.eqb (HTTP.lower key) (HTTP.lower k')); simpl; auto.
Qed.

Lemma delivered_keeps (type payload k v : string) (r : HTTP.Response) :
  HTTP.lower k <> "content-type" -> HTTP.lower k <> "content-length" ->
  In (k, v) (HTTP.headers r) ->
  In (k, v) (HTTP.headers (delivered type payload r)).
Proof.
  intros H1 H2 Hin. unfold delivered, HTTP.set_sent, HTTP.with_header.
  cbn [HTTP.headers].
  apply set_header_keeps; [assumption |].
  apply set_header_keeps; assumption.
Qed.

(** Sending the response leaves the headers of a failure in place. *)
Lemma respond_keeps_header H result st (k v : string) :
  HTTP.lower k <> "content-type" -> HTTP.lower k <> "content-length" ->
  In (k, v) (HTTP.headers (HTTP.response st)) ->
  In (k, v) (HTTP.headers (HTTP.response (snd (HTTP.respond H result st)))).
Proof.
  intros H1 H2 Hin. unfold_respond. unfold_monad.
  repeat run_step;
    cbn [HTTP.set_statusCode HTTP.set_sent HTTP.headers];
    try assumption; try (apply delivered_keeps; assumption).
Qed.

(** The status code after the response phase. *)
Lemma respond_status H result st :
  HTTP.statusCode (HTTP.response (snd (HTTP.respond H result st)))
  = if HTTP.strict_equal_200 (HTTP.statusCode (HTTP.response st))
       && nullish (data result)
    then JSNumber 500
    else HTTP.statusCode (HTTP.response st).
Proof.
  unfold_respond. unfold_monad. simpl_state.
  destruct (HTTP.strict_equal_200 (HTTP.statusCode (HTTP.response st))
            && nullish (data result)); simpl_state.
  all: repeat run_step; reflexivity.
Qed.

(** ** Sequencing of the steps *)

Ltac absurd_method :=
  match goal with
  | Hf : String.eqb ?m ?k = false, He : ?m = ?k |- _ =>
      rewrite He, String.eqb_refl in Hf; discriminate Hf
  end.

Ltac finish_steps :=
  repeat match goal with
    | H : (0 <? Z.of_nat (List.length _)) = false |- _ =>
        apply length_pos_nil in H; subst
    | H : HTTP.method_unsupported _ = false |- _ => apply method_supported in H
    | H : negb (String.eqb (operation_string _) "query") = false |- _ =>
        apply operation_query in H; subst
    end;
  cbn [step_number] in *;
  repeat first [ eassumption | reflexivity | (exfalso; lia) | absurd_method
               | intro | split | eexists
               | (left; eassumption) | (right; eassumption) ].

(** Cloud-function handler: the engine is called in the order of the steps,
    and a call of step [n] is made only after every earlier step passed. *)
Lemma wx_sequential G J options :
  let evs := snd (WX.graphqlWXServer G J options []) in
  strictly_increasing (map step_number evs) = true /\
  (forall ev, In ev evs -> wx_steps_passed G J options (step_number ev)) /\
  (forall args, In (CallExecute args) evs ->
     exists p doc,
       WX.getGraphQLParams J (WX.wxParams options) = Returns p /\
       wx_parseFn G options (source_of p) = Returns doc /\
       args = wx_args options p doc).
Proof.
  unfold WX.graphqlWXServer, WX.pipeline, WX.on_error, WX.call,
    wx_steps_passed, wx_parseFn, wx_validateFn, wx_rules, wx_args, source_of.
  unfold_monad. cbv zeta.
  repeat (case_step; cbn [fst snd app] in * ).
  all: split; [reflexivity | split; [intros ev Hin | intros args Hin]; in_cases].
  all: try discriminate.
  all: try (match goal with Hx : CallExecute _ = CallExecute _ |- _ =>
              inversion Hx; subst; clear Hx end).
  all: finish_steps.
Qed.

Lemma http_pipeline_sequential G H options request response :
  let evs :=
    HTTP.trace
      (snd (HTTP.pipeline G H options request (HTTP.initial G response))) in
  strictly_increasing (map step_number evs) = true /\
  (forall ev, In ev evs ->
     http_steps_passed operation_not_barred G H options request response
       (step_number ev)) /\
  (forall args, In (CallExecute args) evs ->
     exists p o doc,
       HTTP.getGraphQLParams (HTTP.JSON_parse H) request = Returns p /\
       HTTP.options_result options request response (Some p)
       = Returns (HTTP.OptionsObject o) /\
       http_parseFn G o (source_of p) = Returns doc /\
       args = http_args request o p doc).
Proof.
  unfold_http.
  unfold http_steps_passed, http_parseFn, http_validateFn, http_executeFn,
    http_rules, http_args, source_of, operation_not_barred.
  unfold_monad. cbv zeta.
  repeat run_step.
  all: split; [reflexivity | split; [intros ev Hin | intros args Hin]; in_cases].
  all: try discriminate.
  all: try (match goal with Hx : CallExecute _ = CallExecute _ |- _ =>
              inversion Hx; subst; clear Hx end).
  all: finish_steps.
Qed.

(** C3. In both handlers the engine is called in the order of the steps
    (schema validation, parsing, document validation, operation lookup,
    execution, extensions), and a call belonging to a step is made only if
    every earlier step passed: the schema and the query are present, the
    method is supported, schema validation returned no errors, parsing
    returned a document, document validation returned no errors and, on GET,
    the operation lookup did not return a mutation or subscription.  So the
    executor runs only after all of them, with the schema, document, root
    value, context, variables, operation name and resolvers of the request,
    and nothing runs after a failure. *)
Theorem C3_steps_in_order_until_failure :
  (forall G J options,
     let evs := snd (WX.graphqlWXServer G J options []) in
     strictly_increasing (map step_number evs) = true /\
     (forall ev, In ev evs -> wx_steps_passed G J options (step_number ev)) /\
     (forall args, In (CallExecute args) evs ->
        exists p doc,
          WX.getGraphQLParams J (WX.wxParams options) = Returns p /\
          wx_parseFn G options (source_of p) = Returns doc /\
          args = wx_args options p doc))
  /\
  (forall G H options request response,
     let evs :=
       HTTP.trace (snd (HTTP.graphqlMiddleware G H options request response)) in
     strictly_increasing (map step_number evs) = true /\
     (forall ev, In ev evs ->
        http_steps_passed operation_not_barred G H options request response
          (step_number ev)) /\
     (forall args, In (CallExecute args) evs ->
        exists p o doc,
          HTTP.getGraphQLParams (HTTP.JSON_parse H) request = Returns p /\
          HTTP.options_result options request response (Some p)
          = Returns (HTTP.OptionsObject o) /\
          http_parseFn G o (source_of p) = Returns doc /\
          args = http_args request o p doc)).
Proof.
  split.
  - exact wx_sequential.
  - intros G H options request response. cbv zeta.
    rewrite middleware_trace.
    exact (http_pipeline_sequential G H options request response).
Qed.

Lemma C3_witness :
  executor_invoked
    (snd (WX.graphqlWXServer (Sample.engine WX.Req) Sample.JSON_parse
            (Data.wx_options Data.hello_event Sample.hello_schema) [])) = true
  /\ wx_steps_passed (Sample.engine WX.Req) Sample.JSON_parse
       (Data.wx_options Data.hello_event Sample.hello_schema) 8
  /\ http_steps_passed operation_not_barred (Sample.engine HTTP.Req) Sample.host
       (Data.static_options Sample.hello_schema JSUndefined)
       Data.post_hello Data.response_200 8.
Proof.
  destruct C3_steps_in_order_until_failure as [Hwx Hhttp].
  split; [reflexivity | split].
  - destruct (Hwx (Sample.engine WX.Req) Sample.JSON_parse
                (Data.wx_options Data.hello_event Sample.hello_schema))
      as (_ & Hall & _).
    assert (Hex : exists ev,
               In ev (snd (WX.graphqlWXServer (Sample.engine WX.Req)
                             Sample.JSON_parse
                             (Data.wx_options Data.hello_event
                                Sample.hello_schema) []))
               /\ step_number ev = 8%nat).
    { vm_compute. eexists. split.
      - right; right; right; left; reflexivity.
      - reflexivity. }
    destruct Hex as (ev & Hin & Hstep). rewrite <- Hstep. exact (Hall ev Hin).
  - destruct (Hhttp (Sample.engine HTTP.Req) Sample.host
                (Data.static_options Sample.hello_schema JSUndefined)
                Data.post_hello Data.response_200) as (_ & Hall & _).
    assert (Hex : exists ev,
               In ev (HTTP.trace
                        (snd (HTTP.graphqlMiddleware (Sample.engine HTTP.Req)
                                Sample.host
                                (Data.static_options Sample.hello_schema
                                   JSUndefined)
                                Data.post_hello Data.response_200)))
               /\ step_number ev = 8%nat).
    { vm_compute. eexists. split.
      - right; right; right; left; reflexivity.
      - reflexivity. }
    destruct Hex as (ev & Hin & Hstep). rewrite <- Hstep. exact (Hall ev Hin).
Defined.

(** A GET request with two query operations and no operation name: the
    operation lookup returns nothing, the guard lets the request through and
    the executor is invoked, although no requested operation is a query. *)
Lemma C3_counterexample :
  executor_invoked
    (HTTP.trace
       (snd (HTTP.graphqlMiddleware (Sample.engine HTTP.Req) Sample.host
               (Data.static_options Sample.hello_schema JSUndefined)
               Data.get_two_operations Data.response_200))) = true
  /\ ~ http_steps_passed operation_is_query (Sample.engine HTTP.Req) Sample.host
         (Data.static_options Sample.hello_schema JSUndefined)
         Data.get_two_operations Data.response_200 8.
Proof.
  split; [reflexivity |].
  intros (p & o & Hp & Ho & _ & _ & _ & _ & Hdoc).
  vm_compute in Hp. inversion Hp; subst p; clear Hp.
  simpl in Ho. inversion Ho; subst o; clear Ho.
  destruct (Hdoc ltac:(lia)) as (doc & Hparse & Hrest).
  vm_compute in Hparse. inversion Hparse; subst doc; clear Hparse.
  destruct (Hrest ltac:(lia)) as (_ & Hguard & _).
  specialize (Hguard ltac:(lia) eq_refl).
  vm_compute in Hguard. discriminate Hguard.
Qed.

(** ** Failures at the boundary *)




















(** ** A missing query *)

Lemma wx_missing_query G J options p :
  WX.getGraphQLParams J (WX.wxParams options) = Returns p ->
  nullish (WX.schema options) = false ->
  nullish (query p) = true ->
  WX.graphqlWXServer G J options []
  = (Normal (failure_envelope (JSArray [missing_query_failure])), []).
Proof.
  intros Hp Hs Hq.
  unfold WX.graphqlWXServer, WX.pipeline, WX.on_error. unfold_monad. cbv zeta.
  rewrite Hp, Hs, Hq. reflexivity.
Qed.

Lemma http_missing_query G H options request response p o :
  HTTP.getGraphQLParams (HTTP.JSON_parse H) request = Returns p ->
  HTTP.options_result options request response (Some p)
  = Returns (HTTP.OptionsObject o) ->
  nullish (HTTP.schema o) = false ->
  HTTP.method_unsupported request = false ->
  nullish (query p) = true ->
  HTTP.explorer_eligible request p (coalesce (HTTP.graphiql o) (JSBool false))
  = false ->
  exists st,
    HTTP.boundary G H options request (HTTP.initial G response)
    = (Normal (failure_envelope (JSArray [missing_query_failure])), st)
    /\ HTTP.trace st = [].
Proof.
  intros Hp Ho Hs Hm Hq He.
  open_boundary. unfold_http. unfold_monad. cbv zeta.
  repeat run_known.
  all: eexists; split; reflexivity.
Qed.

(** C5. When the extracted query is null, the schema is present
    and, in the HTTP handler, the options resolved to an object, the method
    is GET or POST and the explorer is not eligible, the pipeline fails with
    the failure whose statusCode is 400 and whose message is
    'Must provide query string.'; the result is
    [{data: undefined, errors: [that failure]}] and the engine is not
    called. *)
Theorem C5_missing_query_fails :
  (forall G J options p,
     WX.getGraphQLParams J (WX.wxParams options) = Returns p ->
     nullish (WX.schema options) = false ->
     nullish (query p) = true ->
     WX.graphqlWXServer G J options []
     = (Normal (failure_envelope (JSArray [missing_query_failure])), []))
  /\
  (forall G H options request response p o,
     HTTP.getGraphQLParams (HTTP.JSON_parse H) request = Returns p ->
     HTTP.options_result options request response (Some p)
     = Returns (HTTP.OptionsObject o) ->
     nullish (HTTP.schema o) = false ->
     HTTP.method_unsupported request = false ->
     nullish (query p) = true ->
     HTTP.explorer_eligible request p
       (coalesce (HTTP.graphiql o) (JSBool false)) = false ->
     exists st,
       HTTP.boundary G H options request (HTTP.initial G response)
       = (Normal (failure_envelope (JSArray [missing_query_failure])), st)
       /\ HTTP.trace st = [])
  /\ event_field missing_query_failure "statusCode" = JSNumber 400
  /\ event_field missing_query_failure "message"
     = JSString "Must provide query string.".
Proof.
  split; [exact wx_missing_query |].
  split; [exact http_missing_query |].
  split; reflexivity.
Qed.

Lemma C5_witness :
  (exists p,
     WX.getGraphQLParams Sample.JSON_parse Data.empty_event = Returns p
     /\ nullish (query p) = true)
  /\ nullish Sample.hello_schema = false
  /\ WX.graphqlWXServer (Sample.engine WX.Req) Sample.JSON_parse
       (Data.wx_options Data.empty_event Sample.hello_schema) []
     = (Normal (failure_envelope (JSArray [missing_query_failure])), [])
  /\ HTTP.method_unsupported Data.post_without_query = false
  /\ exists st,
       HTTP.boundary (Sample.engine HTTP.Req) Sample.host
         (Data.static_options Sample.hello_schema JSUndefined)
         Data.post_without_query
         (HTTP.initial (Sample.engine HTTP.Req) Data.response_200)
       = (Normal (failure_envelope (JSArray [missing_query_failure])), st)
       /\ HTTP.trace st = [].
Proof.
  destruct C5_missing_query_fails as (Hwx & Hhttp & _).
  split; [eexists; split; reflexivity |].
  split; [reflexivity |].
  split.
  - exact (Hwx (Sample.engine WX.Req) Sample.JSON_parse
             (Data.wx_options Data.empty_event Sample.hello_schema)
             _ eq_refl eq_refl eq_refl).
  - split; [reflexivity |].
    exact (Hhttp (Sample.engine HTTP.Req) Sample.host
             (Data.static_options Sample.hello_schema JSUndefined)
             Data.post_without_query Data.response_200
             _ _ eq_refl eq_refl eq_refl eq_refl eq_refl eq_refl).
Defined.

(** An event without a query handled with options that lack a schema: the
    failure is the one for the missing schema, with statusCode 500. *)
Lemma C5_counterexample :
  (exists p,
     WX.getGraphQLParams Sample.JSON_parse Data.empty_event = Returns p
     /\ nullish (query p) = true)
  /\ WX.graphqlWXServer (Sample.engine WX.Req) Sample.JSON_parse
       (Data.wx_options Data.empty_event JSUndefined) []
     = (Normal
          (failure_envelope
             (JSArray [httpError 500
                         "GraphQL middleware options must contain a schema."
                         []])), [])
  /\ httpError 500 "GraphQL middleware options must contain a schema." []
     <> missing_query_failure.
Proof.
  split; [eexists; split; reflexivity |].
  split; [reflexivity | discriminate].
Qed.

(** ** Operations barred from GET *)

Lemma http_guard_boundary G H options request response p o doc op :
  HTTP.getGraphQLParams (HTTP.JSON_parse H) request = Returns p ->
  HTTP.options_result options request response (Some p)
  = Returns (HTTP.OptionsObject o) ->
  nullish (HTTP.schema o) = false ->
  HTTP.method request = "GET" ->
  nullish (query p) = false ->
  validateSchema G (HTTP.schema o) = Returns [] ->
  http_parseFn G o (source_of p) = Returns doc ->
  http_validateFn G o (HTTP.schema o) doc (http_rules G o) = Returns [] ->
  getOperationAST G doc (operationName p) = Returns (Some op) ->
  is_query_op op = false ->
  exists st,
    executor_invoked (HTTP.trace st) = false /\
    if HTTP.explorer_eligible request p
         (coalesce (HTTP.graphiql o) (JSBool false))
    then
      HTTP.boundary G H options request (HTTP.initial G response)
      = (Returned, st)
      /\ exists graphiqlOptions,
           HTTP.sent (HTTP.response st)
           = Some (HTTP.SentChunk
                     (HTTP.renderGraphiQL H
                        {| HTTP.gql_query := query p;
                           HTTP.gql_variables := variables p;
                           HTTP.gql_operationName := operationName p;
                           HTTP.gql_result := None |} graphiqlOptions))
    else
      HTTP.boundary G H options request (HTTP.initial G response)
      = (Normal (failure_envelope (JSArray [barred_failure op])), st)
      /\ In ("Allow", "POST") (HTTP.headers (HTTP.response st)).
Proof.
  intros Hp Ho Hs Hm Hq Hvs Hparse Hval Hop Hk.
  pose proof (method_GET_supported request Hm) as Hsup.
  apply is_query_op_string in Hk.
  unfold http_parseFn, http_validateFn, http_rules, source_of in *.
  open_boundary. unfold_http. unfold_monad. cbv zeta.
  repeat run_known.
  all: try (rewrite Hm in *; discriminate).
  - eexists; split; [| split]; cycle 1.
    + reflexivity.
    + eexists; reflexivity.
    + reflexivity.
  - fold (barred_failure op).
    rewrite on_error_eq by reflexivity.
    eexists; split; [| split]; cycle 1.
    + reflexivity.
    + destruct op; try discriminate; apply set_header_In.
    + reflexivity.
Qed.

(** C6. On a GET request that reaches the guard (options resolved,
    schema present and valid, query present and parsed, no validation
    errors) and whose operation is a mutation or subscription, the executor
    is not invoked.  If the explorer is eligible the handler returns after
    rendering it with the request's parameters and no result.  Otherwise the
    pipeline fails with the failure whose statusCode is 405, whose message
    names the operation kind and whose headers are [{Allow: 'POST'}]; the
    result is [{data: undefined, errors: [that failure]}] and the response
    carries the header Allow: POST. *)
Theorem C6_get_bars_non_query G H options request response p o doc op :
  HTTP.getGraphQLParams (HTTP.JSON_parse H) request = Returns p ->
  HTTP.options_result options request response (Some p)
  = Returns (HTTP.OptionsObject o) ->
  nullish (HTTP.schema o) = false ->
  HTTP.method request = "GET" ->
  nullish (query p) = false ->
  validateSchema G (HTTP.schema o) = Returns [] ->
  http_parseFn G o (source_of p) = Returns doc ->
  http_validateFn G o (HTTP.schema o) doc (http_rules G o) = Returns [] ->
  getOperationAST G doc (operationName p) = Returns (Some op) ->
  is_query_op op = false ->
  let final := HTTP.graphqlMiddleware G H options request response in
  executor_invoked (HTTP.trace (snd final)) = false /\
  if HTTP.explorer_eligible request p
       (coalesce (HTTP.graphiql o) (JSBool false))
  then
    fst final = Returned
    /\ exists graphiqlOptions,
         HTTP.sent (HTTP.response (snd final))
         = Some (HTTP.SentChunk
                   (HTTP.renderGraphiQL H
                      {| HTTP.gql_query := query p;
                         HTTP.gql_variables := variables p;
                         HTTP.gql_operationName := operationName p;
                         HTTP.gql_result := None |} graphiqlOptions))
  else
    (exists st,
       HTTP.boundary G H options request (HTTP.initial G response)
       = (Normal (failure_envelope (JSArray [barred_failure op])), st))
    /\ In ("Allow", "POST") (HTTP.headers (HTTP.response (snd final)))
    /\ event_field (barred_failure op) "statusCode" = JSNumber 405
    /\ event_field (barred_failure op) "message"
       = JSString ("Can only perform a " ++ operation_string op
                   ++ " operation from a POST request.")
    /\ event_field (barred_failure op) "headers"
       = JSObject [("Allow", JSString "POST")].
Proof.
  intros Hp Ho Hs Hm Hq Hvs Hparse Hval Hop Hk. cbv zeta.
  destruct (http_guard_boundary G H options request response p o doc op
              Hp Ho Hs Hm Hq Hvs Hparse Hval Hop Hk) as (st & Hinv & Hcase).
  open_middleware; unfold bind.
  destruct (HTTP.explorer_eligible request p
              (coalesce (HTTP.graphiql o) (JSBool false))).
  - destruct Hcase as [Hb Hsent]. rewrite Hb. simpl. auto.
  - destruct Hcase as [Hb Hallow]. rewrite Hb.
    split; [rewrite respond_trace; exact Hinv |].
    split; [eexists; reflexivity |].
    split; [apply respond_keeps_header; [discriminate | discriminate | exact Hallow] |].
    destruct op; repeat split; reflexivity.
Qed.

Lemma C6_witness :
  HTTP.method Data.get_mutation = "GET"
  /\ Sample.getOperationAST
       (Sample.document [Sample.operation "mutation" "" "setHello"]) JSNull
     = Returns (Some mutation_op)
  /\ executor_invoked
       (HTTP.trace
          (snd (HTTP.graphqlMiddleware (Sample.engine HTTP.Req) Sample.host
                  (Data.static_options Sample.hello_schema JSUndefined)
                  Data.get_mutation Data.response_200))) = false
  /\ In ("Allow", "POST")
       (HTTP.headers
          (HTTP.response
             (snd (HTTP.graphqlMiddleware (Sample.engine HTTP.Req) Sample.host
                     (Data.static_options Sample.hello_schema JSUndefined)
                     Data.get_mutation Data.response_200))))
  /\ fst (HTTP.graphqlMiddleware (Sample.engine HTTP.Req) Sample.host
            (Data.static_options Sample.hello_schema (JSBool true))
            Data.get_mutation_html Data.response_200) = Returned.
Proof.
  split; [reflexivity | split; [reflexivity |]].
  pose proof (C6_get_bars_non_query (Sample.engine HTTP.Req) Sample.host
                (Data.static_options Sample.hello_schema JSUndefined)
                Data.get_mutation Data.response_200 _ _ _ mutation_op
                eq_refl eq_refl eq_refl eq_refl eq_refl eq_refl eq_refl
                eq_refl eq_refl eq_refl) as [Hinv Hcase].
  pose proof (C6_get_bars_non_query (Sample.engine HTTP.Req) Sample.host
                (Data.static_options Sample.hello_schema (JSBool true))
                Data.get_mutation_html Data.response_200 _ _ _ mutation_op
                eq_refl eq_refl eq_refl eq_refl eq_refl eq_refl eq_refl
                eq_refl eq_refl eq_refl) as [_ Hshown].
  split; [exact Hinv |].
  split; [exact (proj1 (proj2 Hcase)) | exact (proj1 Hshown)].
Defined.

(** A GET request for a mutation on a field the schema lacks, the explorer
    not being eligible: document validation fails first, so the failure is
    the one for validation errors and no Allow header is set. *)
Lemma C6_counterexample :
  Sample.getOperationAST
    (Sample.document [Sample.operation "mutation" "" "unknown"]) JSNull
  = Returns (Some mutation_op)
  /\ exists st,
       HTTP.boundary (Sample.engine HTTP.Req) Sample.host
         (Data.static_options Sample.hello_schema JSUndefined)
         Data.get_unknown_mutation
         (HTTP.initial (Sample.engine HTTP.Req) Data.response_200)
       = (Normal
            (failure_envelope
               (JSArray [JSObject [("message",
                                    JSString "Cannot query field unknown")]])),
          st)
       /\ HTTP.headers (HTTP.response st) = []
       /\ HTTP.showGraphiQL st = false.
Proof.
  split; [reflexivity |].
  eexists. split; [vm_compute; reflexivity | split; reflexivity].
Qed.

(** ** Variables that are not JSON *)

Lemma wx_invalid_variables G J options s e :
  event_field (WX.wxParams options) "variables" = JSString s ->
  J s = Throws e ->
  WX.getGraphQLParams J (WX.wxParams options) = Throws invalid_variables_failure
  /\ WX.graphqlWXServer G J options []
     = (Normal (failure_envelope (JSArray [invalid_variables_failure])), []).
Proof.
  intros Hv He.
  pose proof (event_field_string_not_nullish _ _ _ Hv) as Hn.
  assert (Hg : WX.getGraphQLParams J (WX.wxParams options)
               = Throws invalid_variables_failure).
  { unfold WX.getGraphQLParams.
    rewrite !(get_prop_event_field _ _ Hn), Hv.
    rewrite (parse_variables_invalid J s e He). reflexivity. }
  split; [exact Hg |].
  unfold WX.graphqlWXServer, WX.pipeline. unfold_monad. rewrite Hg. reflexivity.
Qed.

Lemma http_invalid_variables G H options request response bodyData s e :
  HTTP.body_data request = Returns bodyData ->
  request_field request bodyData "variables" = JSString s ->
  HTTP.JSON_parse H s = Throws e ->
  HTTP.getGraphQLParams (HTTP.JSON_parse H) request
  = Throws invalid_variables_failure
  /\ forall o,
       HTTP.options_result options request response None
       = Returns (HTTP.OptionsObject o) ->
       exists st,
         HTTP.boundary G H options request (HTTP.initial G response)
         = (Normal (failure_envelope (JSArray [invalid_variables_failure])), st)
         /\ HTTP.trace st = [].
Proof.
  intros Hb Hv He.
  assert (Hg : HTTP.getGraphQLParams (HTTP.JSON_parse H) request
               = Throws invalid_variables_failure).
  { open_extractor. rewrite Hb.
    fold (request_field request bodyData "variables"). rewrite Hv.
    rewrite (parse_variables_invalid _ s e He). reflexivity. }
  split; [exact Hg |].
  intros o Ho.
  open_boundary. unfold_http. unfold_monad. cbv zeta.
  repeat run_known.
  eexists; split; reflexivity.
Qed.

(** C4. When the supplied variables are a string that is not
    valid JSON, extraction fails with the failure whose statusCode is 400 and
    whose message is 'Variables are invalid JSON.', for every event and for
    every request whose body was parsed.  The cloud-function handler then
    resolves to [{data: undefined, errors: [that failure]}]; the HTTP handler
    has that result at its boundary provided the options, resolved without
    the request parameters, are an object. *)
Theorem C4_invalid_variables_fail :
  (forall G J options s e,
     event_field (WX.wxParams options) "variables" = JSString s ->
     J s = Throws e ->
     WX.getGraphQLParams J (WX.wxParams options)
     = Throws invalid_variables_failure
     /\ WX.graphqlWXServer G J options []
        = (Normal (failure_envelope (JSArray [invalid_variables_failure])), []))
  /\
  (forall G H options request response bodyData s e,
     HTTP.body_data request = Returns bodyData ->
     request_field request bodyData "variables" = JSString s ->
     HTTP.JSON_parse H s = Throws e ->
     HTTP.getGraphQLParams (HTTP.JSON_parse H) request
     = Throws invalid_variables_failure
     /\ forall o,
          HTTP.options_result options request response None
          = Returns (HTTP.OptionsObject o) ->
          exists st,
            HTTP.boundary G H options request (HTTP.initial G response)
            = (Normal (failure_envelope (JSArray [invalid_variables_failure])),
               st)
            /\ HTTP.trace st = [])
  /\ event_field invalid_variables_failure "statusCode" = JSNumber 400
  /\ event_field invalid_variables_failure "message"
     = JSString "Variables are invalid JSON.".
Proof.
  split; [exact wx_invalid_variables |].
  split; [exact http_invalid_variables |].
  split; reflexivity.
Qed.

Lemma C4_witness :
  event_field Data.bad_variables_event "variables" = JSString "{"
  /\ (exists e, Sample.JSON_parse "{" = Throws e)
  /\ WX.graphqlWXServer (Sample.engine WX.Req) Sample.JSON_parse
       (Data.wx_options Data.bad_variables_event Sample.hello_schema) []
     = (Normal (failure_envelope (JSArray [invalid_variables_failure])), [])
  /\ exists st,
       HTTP.boundary (Sample.engine HTTP.Req) Sample.host
         (Data.static_options Sample.hello_schema JSUndefined)
         Data.post_bad_variables
         (HTTP.initial (Sample.engine HTTP.Req) Data.response_200)
       = (Normal (failure_envelope (JSArray [invalid_variables_failure])), st)
       /\ HTTP.trace st = [].
Proof.
  destruct C4_invalid_variables_fail as (Hwx & Hhttp & _).
  split; [reflexivity | split; [eexists; reflexivity |]].
  split.
  - exact (proj2 (Hwx (Sample.engine WX.Req) Sample.JSON_parse
                    (Data.wx_options Data.bad_variables_event
                       Sample.hello_schema) "{" _ eq_refl eq_refl)).
  - exact (proj2 (Hhttp (Sample.engine HTTP.Req) Sample.host
                    (Data.static_options Sample.hello_schema JSUndefined)
                    Data.post_bad_variables Data.response_200 _ "{" _
                    eq_refl eq_refl eq_refl) _ eq_refl).
Defined.

(** A request with invalid variables handled with an options function that
    reads the request parameters: the function is called without them,
    throws, and its error replaces the failure of the extraction. *)
Lemma C4_counterexample :
  request_field Data.post_bad_variables
    [("query", JSString "{ hello }"); ("variables", JSString "{")] "variables"
  = JSString "{"
  /\ (exists e, Sample.JSON_parse "{" = Throws e)
  /\ exists st,
       HTTP.boundary (Sample.engine HTTP.Req) Sample.host
         Data.options_reading_params Data.post_bad_variables
         (HTTP.initial (Sample.engine HTTP.Req) Data.response_200)
       = (Normal
            (failure_envelope
               (JSArray [TypeError
                           "Cannot read properties of undefined (reading 'query')"])),
          st)
       /\ HTTP.statusCode (HTTP.response st) = JSNumber 500.
Proof.
  split; [reflexivity | split; [eexists; reflexivity |]].
  eexists. split; [vm_compute; reflexivity | reflexivity].
Qed.

(** ** The status code *)

(** C9. Once the [try]/[catch] statement has completed with a result and
    the response status is still 200, the status sent is 500 when the result
    has no data (null or undefined) and stays 200 when it has. *)
Theorem C9_status_500_without_data G H options request response result st1 :
  HTTP.boundary G H options request (HTTP.initial G response)
  = (Normal result, st1) ->
  HTTP.statusCode (HTTP.response st1) = JSNumber 200 ->
  HTTP.statusCode
    (HTTP.response (snd (HTTP.graphqlMiddleware G H options request response)))
  = if nullish (data result) then JSNumber 500 else JSNumber 200.
Proof.
  intros Hb Hs.
  open_middleware; unfold bind. rewrite Hb.
  rewrite respond_status, Hs. reflexivity.
Qed.

Lemma C9_witness :
  (exists result st1,
     HTTP.boundary (Sample.engine HTTP.Req) Sample.host
       (Data.static_options Sample.hello_schema JSUndefined) Data.post_hello
       (HTTP.initial (Sample.engine HTTP.Req) Data.response_200)
     = (Normal result, st1)
     /\ HTTP.statusCode (HTTP.response st1) = JSNumber 200
     /\ data result = JSObject [("hello", JSString "Hello world!")])
  /\ HTTP.statusCode
       (HTTP.response
          (snd (HTTP.graphqlMiddleware (Sample.engine HTTP.Req) Sample.host
                  (Data.static_options Sample.hello_schema JSUndefined)
                  Data.post_hello Data.response_200))) = JSNumber 200
  /\ HTTP.statusCode
       (HTTP.response
          (snd (HTTP.graphqlMiddleware (Sample.engine HTTP.Req) Sample.host
                  (Data.static_options Sample.hello_schema JSUndefined)
                  Data.post_two_operations Data.response_200))) = JSNumber 500.
Proof.
  split; [eexists; eexists; split; [vm_compute; reflexivity | split; reflexivity] |].
  split.
  - exact (C9_status_500_without_data (Sample.engine HTTP.Req) Sample.host
             (Data.static_options Sample.hello_schema JSUndefined)
             Data.post_hello Data.response_200 _ _ eq_refl eq_refl).
  - exact (C9_status_500_without_data (Sample.engine HTTP.Req) Sample.host
             (Data.static_options Sample.hello_schema JSUndefined)
             Data.post_two_operations Data.response_200 _ _ eq_refl eq_refl).
Defined.











(** C7. The cloud-function handler selects an error formatter and never
    applies it: its result is the same whatever formatters the options hold,
    and a failure is returned as thrown.  The HTTP handler, given the same
    formatter, sends the formatted error. *)
Theorem C7_wx_errors_returned_unformatted :
  (forall G J options custom legacy t,
     WX.graphqlWXServer G J (WX.with_formatters custom legacy options) t
     = WX.graphqlWXServer G J options t)
  /\ WX.graphqlWXServer (Sample.engine WX.Req) Sample.JSON_parse
       (Data.wx_options_formatting Data.empty_event) []
     = (Normal (failure_envelope (JSArray [missing_query_failure])), [])
  /\ Data.hide_message missing_query_failure
     = Returns (JSObject [("message", JSString "hidden")])
  /\ HTTP.sent
       (HTTP.response
          (snd (HTTP.graphqlMiddleware (Sample.engine HTTP.Req) Sample.host
                  Data.options_hiding_messages Data.post_without_query
                  Data.response_200)))
     = Some (HTTP.SentJson
               (failure_envelope
                  (JSArray [JSObject [("message", JSString "hidden")]]))).
Proof.
  split.
  - intros G J options custom legacy t. destruct options. reflexivity.
  - repeat split; reflexivity.
Qed.

(** * Further properties *)

(** ** Failures built by [httpError] *)

(** X1. A failure built by [httpError(statusCode, message, details)] has,
    under every key, the last value the details give to that key; under a
    key the details lack it has the code for [statusCode], the message for
    [message] and [undefined] for any other key.  So details naming
    [statusCode] or [message] replace the arguments. *)
Theorem X1_httpError_fields (code : Z) (message : string)
  (details : list (string * JSValue)) (k : string) :
  event_field (httpError code message details) k
  = match last_detail k details with
    | Some v => v
    | None =>
        if String.eqb k "statusCode" then JSNumber code
        else if String.eqb k "message" then JSString message
        else JSUndefined
    end.
Proof.
  unfold event_field, httpError, get_prop. rewrite lookup_spread. simpl.
  destruct (last_detail k details); [reflexivity |].
  destruct (String.eqb k "statusCode"); [reflexivity |].
  destruct (String.eqb k "message"); reflexivity.
Qed.

(** ** Response headers *)

Lemma header_value_set (k v : string) (hs : list (string * string)) :
  header_value k (HTTP.set_header k v hs) = Some v.
Proof.
  induction hs as [| [k0 v0] hs IH]; simpl.
  - rewrite String.eqb_refl. reflexivity.
  - destruct (String.eqb_spec (HTTP.lower k) (HTTP.lower k0)) as [He | Hne];
      simpl.
    + rewrite String.eqb_refl. reflexivity.
    + destruct (String.eqb_spec k k0); [congruence | exact IH].
Qed.




(** ** Sources of the request parameters *)

(** X3. In the request extractor a URL parameter wins over the body field of
    the same name: a [query] or [operationName] present in the URL is the
    extracted one whatever the body holds, and [raw] is true when the URL has
    a [raw] parameter and otherwise exactly when the body has a [raw] field
    that is not undefined. *)
Theorem X3_url_parameter_first (J : JSONParser) (request : HTTP.Request)
  (bodyData : list (string * JSValue)) (s : string) (p : GraphQLParams) :
  HTTP.body_data request = Returns bodyData ->
  HTTP.getGraphQLParams J request = Returns p ->
  (HTTP.url_get "query" (HTTP.url_params request) = JSString s ->
   query p = JSString s) /\
  (HTTP.url_get "operationName" (HTTP.url_params request) = JSString s ->
   operationName p = JSString s) /\
  (HTTP.url_get "raw" (HTTP.url_params request) = JSString s ->
   raw p = JSBool true) /\
  (HTTP.url_get "raw" (HTTP.url_params request) = JSNull ->
   raw p = JSBool (negb match HTTP.body_get "raw" bodyData with
                        | JSUndefined => true
                        | _ => false
                        end)).
Proof.
  intros Hb. open_extractor. rewrite Hb.
  match goal with
  | |- context [parse_variables J ?v] => destruct (parse_variables J v)
  end; [| discriminate].
  intro Hx; inversion Hx; subst; clear Hx. cbn [query operationName raw].
  repeat split; intro Hu; rewrite Hu; try reflexivity.
  simpl. destruct (HTTP.body_get "raw" bodyData); reflexivity.
Qed.

Lemma X3_witness :
  exists p,
    HTTP.getGraphQLParams Sample.JSON_parse
      (Data.request_of "GET" [("query", "{ hello }"); ("raw", "")]
         [("query", JSString "{ goodbye }")] "html") = Returns p
    /\ query p = JSString "{ hello }"
    /\ raw p = JSBool true.
Proof.
  eexists. split; [reflexivity |].
  destruct (X3_url_parameter_first Sample.JSON_parse
              (Data.request_of "GET" [("query", "{ hello }"); ("raw", "")]
                 [("query", JSString "{ goodbye }")] "html")
              [("query", JSString "{ goodbye }")] "{ hello }" _
              eq_refl eq_refl) as (Hq & _ & _ & _).
  destruct (X3_url_parameter_first Sample.JSON_parse
              (Data.request_of "GET" [("query", "{ hello }"); ("raw", "")]
                 [("query", JSString "{ goodbye }")] "html")
              [("query", JSString "{ goodbye }")] "" _
              eq_refl eq_refl) as (_ & _ & Hr & _).
  split; [exact (Hq eq_refl) | exact (Hr eq_refl)].
Defined.

(** ** The outcome of each step *)

(** X4. Options without a schema: whatever the request asks, both handlers
    report the failure with statusCode 500 and message 'GraphQL middleware
    options must contain a schema.' as the only error, and call nothing of
    the engine; the HTTP handler does so as JSON even to a client that
    prefers HTML, and sets no header. *)
Theorem X4_missing_schema :
  (forall G J options p,
     WX.getGraphQLParams J (WX.wxParams options) = Returns p ->
     nullish (WX.schema options) = true ->
     WX.graphqlWXServer G J options []
     = (Normal (failure_envelope (JSArray [missing_schema_failure])), []))
  /\
  (forall G H options request response p o,
     HTTP.getGraphQLParams (HTTP.JSON_parse H) request = Returns p ->
     HTTP.options_result options request response (Some p)
     = Returns (HTTP.OptionsObject o) ->
     nullish (HTTP.schema o) = true ->
     exists st,
       HTTP.boundary G H options request (HTTP.initial G response)
       = (Normal (failure_envelope (JSArray [missing_schema_failure])), st)
       /\ HTTP.trace st = [] /\ HTTP.showGraphiQL st = false
       /\ HTTP.headers (HTTP.response st) = HTTP.headers response).
Proof.
  split.
  - intros G J options p Hp Hs. unfold_words. run_wx. reflexivity.
  - intros G H options request response p o Hp Ho Hs. unfold_words. run_http.
    eexists; repeat split; reflexivity.
Qed.

Lemma X4_witness :
  WX.graphqlWXServer (Sample.engine WX.Req) Sample.JSON_parse
    (More.wx_options (More.event_of "{ hello }") JSNull None) []
  = (Normal (failure_envelope (JSArray [missing_schema_failure])), [])
  /\ fst (HTTP.boundary (Sample.engine HTTP.Req) Sample.host
            (More.static
               (More.http_options JSUndefined None None None None None
                  (JSBool true)))
            (More.post "{ hello }" "html")
            (HTTP.initial (Sample.engine HTTP.Req) Data.response_200))
     = Normal (failure_envelope (JSArray [missing_schema_failure])).
Proof.
  destruct X4_missing_schema as [Hwx Hhttp].
  split.
  - exact (Hwx (Sample.engine WX.Req) Sample.JSON_parse
             (More.wx_options (More.event_of "{ hello }") JSNull None)
             _ eq_refl eq_refl).
  - destruct (Hhttp (Sample.engine HTTP.Req) Sample.host
                (More.static
                   (More.http_options JSUndefined None None None None None
                      (JSBool true)))
                (More.post "{ hello }" "html") Data.response_200
                _ _ eq_refl eq_refl eq_refl) as (st & Hb & _).
    rewrite Hb. reflexivity.
Defined.

(** X5. A request whose method is neither GET nor POST, handled with options
    that have a schema: the only error is the failure with statusCode 405 and
    message 'GraphQL only supports GET and POST requests.', the response
    carries the header Allow: GET, POST, and nothing of the engine is
    called. *)
Theorem X5_unsupported_method G H options request response p o :
  HTTP.getGraphQLParams (HTTP.JSON_parse H) request = Returns p ->
  HTTP.options_result options request response (Some p)
  = Returns (HTTP.OptionsObject o) ->
  nullish (HTTP.schema o) = false ->
  HTTP.method_unsupported request = true ->
  exists st,
    HTTP.boundary G H options request (HTTP.initial G response)
    = (Normal (failure_envelope (JSArray [unsupported_method_failure])), st)
    /\ HTTP.trace st = []
    /\ header_value "Allow" (HTTP.headers (HTTP.response st)) = Some "GET, POST"
    /\ HTTP.showGraphiQL st = false.
Proof.
  intros Hp Ho Hs Hm. unfold_words. run_http.
  eexists; repeat split; try reflexivity.
  cbn. apply header_value_set.
Qed.

Lemma X5_witness :
  HTTP.method_unsupported More.put_hello = true
  /\ exists st,
       HTTP.boundary (Sample.engine HTTP.Req) Sample.host
         (More.static More.plain) More.put_hello
         (HTTP.initial (Sample.engine HTTP.Req) Data.response_200)
       = (Normal (failure_envelope (JSArray [unsupported_method_failure])), st)
       /\ HTTP.trace st = []
       /\ header_value "Allow" (HTTP.headers (HTTP.response st))
          = Some "GET, POST"
       /\ HTTP.showGraphiQL st = false.
Proof.
  split; [reflexivity |].
  exact (X5_unsupported_method (Sample.engine HTTP.Req) Sample.host
           (More.static More.plain) More.put_hello Data.response_200
           _ _ eq_refl eq_refl eq_refl eq_refl).
Defined.

(** X6. Options that are, or resolve to, something that is not an object:
    the only error reported is 'GraphQL middleware option function must
    return an options object ...', whether the parameters were extracted or
    their extraction failed (whose failure it then replaces); nothing of the
    engine is called and the error formatter stays the engine's. *)
Theorem X6_options_not_object G H options request response v :
  (forall p,
     HTTP.getGraphQLParams (HTTP.JSON_parse H) request = Returns p ->
     HTTP.options_result options request response (Some p)
     = Returns (HTTP.NotAnObject v) ->
     exists st,
       HTTP.boundary G H options request (HTTP.initial G response)
       = (Normal (failure_envelope (JSArray [options_error])), st)
       /\ HTTP.trace st = [] /\ HTTP.formatErrorFn st = formatError G)
  /\
  (forall e,
     HTTP.getGraphQLParams (HTTP.JSON_parse H) request = Throws e ->
     HTTP.options_result options request response None
     = Returns (HTTP.NotAnObject v) ->
     exists st,
       HTTP.boundary G H options request (HTTP.initial G response)
       = (Normal (failure_envelope (JSArray [options_error])), st)
       /\ HTTP.trace st = [] /\ HTTP.formatErrorFn st = formatError G).
Proof.
  split.
  - intros p Hp Ho. unfold_words. run_http.
    eexists; repeat split; reflexivity.
  - intros e Hp Ho. unfold_words. run_http.
    eexists; repeat split; reflexivity.
Qed.

Lemma X6_witness :
  fst (HTTP.boundary (Sample.engine HTTP.Req) Sample.host
         (HTTP.StaticOptions (HTTP.NotAnObject (JSNumber 1)))
         Data.post_hello
         (HTTP.initial (Sample.engine HTTP.Req) Data.response_200))
  = Normal (failure_envelope (JSArray [options_error]))
  /\ fst (HTTP.boundary (Sample.engine HTTP.Req) Sample.host
            (HTTP.StaticOptions (HTTP.NotAnObject (JSNumber 1)))
            Data.post_bad_variables
            (HTTP.initial (Sample.engine HTTP.Req) Data.response_200))
     = Normal (failure_envelope (JSArray [options_error])).
Proof.
  split.
  - destruct (proj1 (X6_options_not_object (Sample.engine HTTP.Req) Sample.host
                       (HTTP.StaticOptions (HTTP.NotAnObject (JSNumber 1)))
                       Data.post_hello Data.response_200 (JSNumber 1))
                _ eq_refl eq_refl) as (st & Hb & _).
    rewrite Hb. reflexivity.
  - destruct (proj2 (X6_options_not_object (Sample.engine HTTP.Req) Sample.host
                       (HTTP.StaticOptions (HTTP.NotAnObject (JSNumber 1)))
                       Data.post_bad_variables Data.response_200 (JSNumber 1))
                _ eq_refl eq_refl) as (st & Hb & _).
    rewrite Hb. reflexivity.
Defined.

(** X7. An invalid schema: when [validateSchema] returns errors, both
    handlers report exactly those errors (not the 500 failure that carries
    them) and call nothing of the engine after [validateSchema]. *)
Theorem X7_invalid_schema :
  (forall G J options p x rest,
     wx_ready J options p ->
     validateSchema G (WX.schema options) = Returns (x :: rest) ->
     WX.graphqlWXServer G J options []
     = (Normal (failure_envelope (JSArray (x :: rest))),
        [CallValidateSchema (WX.schema options)]))
  /\
  (forall G H options request response p o x rest,
     http_ready H options request response p o ->
     validateSchema G (HTTP.schema o) = Returns (x :: rest) ->
     exists st,
       HTTP.boundary G H options request (HTTP.initial G response)
       = (Normal (failure_envelope (JSArray (x :: rest))), st)
       /\ HTTP.trace st = [CallValidateSchema (HTTP.schema o)]).
Proof.
  split.
  - intros G J options p x rest Hr Hv. unfold_words. split_hyps.
    run_wx. reflexivity.
  - intros G H options request response p o x rest Hr Hv.
    unfold_words. split_hyps. run_http.
    all: eexists; split; reflexivity.
Qed.

Lemma X7_witness :
  wx_ready Sample.JSON_parse
    (More.wx_options (More.event_of "{ hello }") More.rootless_schema None)
    {| query := JSString "{ hello }"; variables := JSNull;
       operationName := JSNull; raw := JSUndefined |}
  /\ WX.graphqlWXServer (Sample.engine WX.Req) Sample.JSON_parse
       (More.wx_options (More.event_of "{ hello }") More.rootless_schema None)
       []
     = (Normal
          (failure_envelope
             (JSArray [JSObject [("message",
                                  JSString "Query root type must be provided.")]])),
        [CallValidateSchema More.rootless_schema]).
Proof.
  assert (Hr : wx_ready Sample.JSON_parse
                 (More.wx_options (More.event_of "{ hello }")
                    More.rootless_schema None)
                 {| query := JSString "{ hello }"; variables := JSNull;
                    operationName := JSNull; raw := JSUndefined |})
    by (repeat split; reflexivity).
  split; [exact Hr |].
  exact (proj1 X7_invalid_schema (Sample.engine WX.Req) Sample.JSON_parse
           _ _ _ _ Hr eq_refl).
Defined.

(** X8. A query that does not parse: both handlers report the error thrown
    by the parse function itself as the only error, and call neither the
    validation function nor the executor. *)
Theorem X8_syntax_error :
  (forall G J options p e,
     wx_ready J options p ->
     validateSchema G (WX.schema options) = Returns [] ->
     wx_parseFn G options (source_of p) = Throws e ->
     WX.graphqlWXServer G J options []
     = (Normal (failure_envelope (JSArray [e])),
        [CallValidateSchema (WX.schema options); CallParse (source_of p)]))
  /\
  (forall G H options request response p o e,
     http_ready H options request response p o ->
     validateSchema G (HTTP.schema o) = Returns [] ->
     http_parseFn G o (source_of p) = Throws e ->
     exists st,
       HTTP.boundary G H options request (HTTP.initial G response)
       = (Normal (failure_envelope (JSArray [e])), st)
       /\ HTTP.trace st
          = [CallValidateSchema (HTTP.schema o); CallParse (source_of p)]).
Proof.
  split.
  - intros G J options p e Hr Hv Hp. unfold_words. split_hyps.
    run_wx. reflexivity.
  - intros G H options request response p o e Hr Hv Hp.
    unfold_words. split_hyps. run_http.
    all: eexists; split; reflexivity.
Qed.

Lemma X8_witness :
  http_ready Sample.host (More.static More.plain) (More.post "{" "json")
    Data.response_200
    {| query := JSString "{"; variables := JSNull; operationName := JSNull;
       raw := JSBool false |} More.plain
  /\ fst (HTTP.boundary (Sample.engine HTTP.Req) Sample.host
            (More.static More.plain) (More.post "{" "json")
            (HTTP.initial (Sample.engine HTTP.Req) Data.response_200))
     = Normal (failure_envelope (JSArray [Sample.syntaxError])).
Proof.
  assert (Hr : http_ready Sample.host (More.static More.plain)
                 (More.post "{" "json") Data.response_200
                 {| query := JSString "{"; variables := JSNull;
                    operationName := JSNull; raw := JSBool false |} More.plain)
    by (repeat split; reflexivity).
  split; [exact Hr |].
  destruct (proj2 X8_syntax_error (Sample.engine HTTP.Req) Sample.host
              _ _ _ _ _ Sample.syntaxError Hr eq_refl eq_refl)
    as (st & Hb & _).
  rewrite Hb. reflexivity.
Defined.

(** X9. A document with validation errors: both handlers report exactly the
    errors the validation function returned, having called it with the
    engine's rules followed by the options' own, and do not call the
    executor. *)
Theorem X9_validation_errors :
  (forall G J options p doc x rest,
     wx_ready J options p ->
     validateSchema G (WX.schema options) = Returns [] ->
     wx_parseFn G options (source_of p) = Returns doc ->
     wx_validateFn G options (WX.schema options) doc
       (specifiedRules G ++ option_coalesce (WX.validationRules options) [])%list
     = Returns (x :: rest) ->
     WX.graphqlWXServer G J options []
     = (Normal (failure_envelope (JSArray (x :: rest))),
        [CallValidateSchema (WX.schema options); CallParse (source_of p);
         CallValidate (WX.schema options) doc
           (specifiedRules G
            ++ option_coalesce (WX.validationRules options) [])%list]))
  /\
  (forall G H options request response p o doc x rest,
     http_ready H options request response p o ->
     validateSchema G (HTTP.schema o) = Returns [] ->
     http_parseFn G o (source_of p) = Returns doc ->
     http_validateFn G o (HTTP.schema o) doc
       (specifiedRules G ++ option_coalesce (HTTP.validationRules o) [])%list
     = Returns (x :: rest) ->
     exists st,
       HTTP.boundary G H options request (HTTP.initial G response)
       = (Normal (failure_envelope (JSArray (x :: rest))), st)
       /\ HTTP.trace st
          = [CallValidateSchema (HTTP.schema o); CallParse (source_of p);
             CallValidate (HTTP.schema o) doc
               (specifiedRules G
                ++ option_coalesce (HTTP.validationRules o) [])%list]).
Proof.
  split.
  - intros G J options p doc x rest Hr Hv Hp Hd. unfold_words. split_hyps.
    run_wx. reflexivity.
  - intros G H options request response p o doc x rest Hr Hv Hp Hd.
    unfold_words. split_hyps. run_http.
    all: eexists; split; reflexivity.
Qed.

Lemma X9_witness :
  wx_ready Sample.JSON_parse
    (More.wx_options (More.event_of "{ goodbye }") Sample.hello_schema None)
    {| query := JSString "{ goodbye }"; variables := JSNull;
       operationName := JSNull; raw := JSUndefined |}
  /\ WX.graphqlWXServer (Sample.engine WX.Req) Sample.JSON_parse
       (More.wx_options (More.event_of "{ goodbye }") Sample.hello_schema None)
       []
     = (Normal
          (failure_envelope
             (JSArray [JSObject [("message",
                                  JSString "Cannot query field goodbye")]])),
        [CallValidateSchema Sample.hello_schema;
         CallParse {| body := JSString "{ goodbye }";
                      name := "GraphQL request" |};
         CallValidate Sample.hello_schema
           (Sample.document [Sample.operation "query" "" "goodbye"])
           ["ExecutableDefinitionsRule"; "FieldsOnCorrectTypeRule";
            "NoIntrospectionRule"]]).
Proof.
  assert (Hr : wx_ready Sample.JSON_parse
                 (More.wx_options (More.event_of "{ goodbye }")
                    Sample.hello_schema None)
                 {| query := JSString "{ goodbye }"; variables := JSNull;
                    operationName := JSNull; raw := JSUndefined |})
    by (repeat split; reflexivity).
  split; [exact Hr |].
  exact (proj1 X9_validation_errors (Sample.engine WX.Req) Sample.JSON_parse
           _ _ _ _ _ Hr eq_refl eq_refl eq_refl).
Defined.

(** X10. An executor that throws: both handlers report the thrown error
    itself as the only error, after the calls for validation (and, on GET,
    the operation lookup) and the one call of the executor. *)
Theorem X10_execution_context_error :
  (forall G J options p doc e,
     wx_ready J options p ->
     wx_validated G options p doc ->
     wx_executeFn G options (wx_args options p doc) = Throws e ->
     WX.graphqlWXServer G J options []
     = (Normal (failure_envelope (JSArray [e])),
        wx_validation_calls G options p doc
        ++ [CallExecute (wx_args options p doc)])%list)
  /\
  (forall G H options request response p o doc e,
     http_ready H options request response p o ->
     http_validated G o p doc ->
     guard_open G request p doc ->
     http_executeFn G o (http_args request o p doc) = Throws e ->
     exists st,
       HTTP.boundary G H options request (HTTP.initial G response)
       = (Normal (failure_envelope (JSArray [e])), st)
       /\ HTTP.trace st
          = (http_validation_calls G o p doc ++ lookup_calls request p doc
             ++ [CallExecute (http_args request o p doc)])%list).
Proof.
  split.
  - intros G J options p doc e Hr Hv He. unfold_words. split_hyps.
    run_wx. reflexivity.
  - intros G H options request response p o doc e Hr Hv Hg He.
    unfold_words. split_hyps. open_guard Hg; run_http.
    all: try absurd_branch.
    all: eexists; split; reflexivity.
Qed.

Lemma X10_witness :
  wx_ready Sample.JSON_parse
    (More.wx_options (More.event_of "{ hello }") Sample.hello_schema
       (Some More.failing_execute))
    {| query := JSString "{ hello }"; variables := JSNull;
       operationName := JSNull; raw := JSUndefined |}
  /\ fst (WX.graphqlWXServer (Sample.engine WX.Req) Sample.JSON_parse
            (More.wx_options (More.event_of "{ hello }") Sample.hello_schema
               (Some More.failing_execute)) [])
     = Normal (failure_envelope (JSArray [Error "no context"])).
Proof.
  assert (Hr : wx_ready Sample.JSON_parse
                 (More.wx_options (More.event_of "{ hello }")
                    Sample.hello_schema (Some More.failing_execute))
                 {| query := JSString "{ hello }"; variables := JSNull;
                    operationName := JSNull; raw := JSUndefined |})
    by (repeat split; reflexivity).
  split; [exact Hr |].
  rewrite (proj1 X10_execution_context_error (Sample.engine WX.Req)
             Sample.JSON_parse _ _
             (Sample.document [Sample.operation "query" "" "hello"])
             (Error "no context") Hr
             (conj eq_refl (conj eq_refl eq_refl)) eq_refl).
  reflexivity.
Defined.

(** X11. A request that passes every check: the cloud-function handler
    resolves to the executor's result unchanged, having called
    [validateSchema], the parse function, the validation function and the
    executor once each in that order with the request's schema, document,
    root value, context, variables and operation name; the HTTP handler,
    without an extensions function, has the same result at its boundary, the
    operation lookup being called before the executor on GET only, and has
    not touched the response by then. *)
Theorem X11_executor_result_returned :
  (forall G J options p doc result,
     wx_ready J options p ->
     wx_validated G options p doc ->
     wx_executeFn G options (wx_args options p doc) = Returns result ->
     WX.graphqlWXServer G J options []
     = (Normal result,
        wx_validation_calls G options p doc
        ++ [CallExecute (wx_args options p doc)])%list)
  /\
  (forall G H options request response p o doc result,
     http_ready H options request response p o ->
     http_validated G o p doc ->
     guard_open G request p doc ->
     http_executeFn G o (http_args request o p doc) = Returns result ->
     HTTP.extensions_option o = None ->
     exists st,
       HTTP.boundary G H options request (HTTP.initial G response)
       = (Normal result, st)
       /\ HTTP.trace st
          = (http_validation_calls G o p doc ++ lookup_calls request p doc
             ++ [CallExecute (http_args request o p doc)])%list
       /\ HTTP.response st = response).
Proof.
  split.
  - intros G J options p doc result Hr Hv He. unfold_words. split_hyps.
    run_wx. reflexivity.
  - intros G H options request response p o doc result Hr Hv Hg He Hx.
    unfold_words. split_hyps. open_guard Hg; run_http.
    all: try absurd_branch.
    all: eexists; split; [reflexivity | split; reflexivity].
Qed.

Lemma X11_witness :
  wx_ready Sample.JSON_parse
    (More.wx_options (More.event_of "{ hello }") Sample.hello_schema None)
    {| query := JSString "{ hello }"; variables := JSNull;
       operationName := JSNull; raw := JSUndefined |}
  /\ fst (WX.graphqlWXServer (Sample.engine WX.Req) Sample.JSON_parse
            (More.wx_options (More.event_of "{ hello }") Sample.hello_schema
               None) [])
     = Normal {| data := JSObject [("hello", JSString "Hello world!")];
                 errors := JSUndefined; extensions := JSUndefined |}
  /\ guard_open (Sample.engine HTTP.Req) Data.get_two_operations
       {| query := JSString "query A { hello } query B { hello }";
          variables := JSNull; operationName := JSNull; raw := JSBool false |}
       (Sample.document [Sample.operation "query" "A" "hello";
                         Sample.operation "query" "B" "hello"])
  /\ exists st,
       HTTP.boundary (Sample.engine HTTP.Req) Sample.host
         (More.static More.plain) Data.get_two_operations
         (HTTP.initial (Sample.engine HTTP.Req) Data.response_200)
       = (Normal
            {| data := JSUndefined;
               errors :=
                 JSArray [JSObject [("message", JSString "Must provide operation name if query contains multiple operations.")]];
               extensions := JSUndefined |}, st)
       /\ existsb is_get_operation_lookup (HTTP.trace st) = true.
Proof.
  assert (Hr : wx_ready Sample.JSON_parse
                 (More.wx_options (More.event_of "{ hello }")
                    Sample.hello_schema None)
                 {| query := JSString "{ hello }"; variables := JSNull;
                    operationName := JSNull; raw := JSUndefined |})
    by (repeat split; reflexivity).
  split; [exact Hr | split].
  - rewrite (proj1 X11_executor_result_returned (Sample.engine WX.Req)
               Sample.JSON_parse _ _
               (Sample.document [Sample.operation "query" "" "hello"])
               _ Hr (conj eq_refl (conj eq_refl eq_refl)) eq_refl).
    reflexivity.
  - assert (Hg : guard_open (Sample.engine HTTP.Req) Data.get_two_operations
                   {| query := JSString "query A { hello } query B { hello }";
                      variables := JSNull; operationName := JSNull;
                      raw := JSBool false |}
                   (Sample.document [Sample.operation "query" "A" "hello";
                                     Sample.operation "query" "B" "hello"]))
      by (right; left; reflexivity).
    split; [exact Hg |].
    destruct (proj2 X11_executor_result_returned (Sample.engine HTTP.Req)
                Sample.host (More.static More.plain) Data.get_two_operations
                Data.response_200 _ More.plain _ _
                (conj eq_refl (conj eq_refl (conj eq_refl
                   (conj eq_refl eq_refl))))
                (conj eq_refl (conj eq_refl eq_refl)) Hg eq_refl eq_refl)
      as (st & Hb & Ht & _).
    exists st. split; [exact Hb |]. rewrite Ht. reflexivity.
Defined.

(** X12. With an extensions function, which the HTTP handler calls once after
    the executor with the document, variables, operation name, result and
    context, and a response that has not been sent: a value that is not null
    or undefined becomes the [extensions] of the result, whose data and
    errors stay; null or undefined leaves the result as it is; and if the
    function throws, the executor's result is dropped and what it threw is
    reported as a failure, unless it is null or undefined or carries a
    header that the response refuses, in which case the [catch] block
    throws. *)
Theorem X12_extensions_merged G H options request response p o doc result f :
  HTTP.sent response = None ->
  http_ready H options request response p o ->
  http_validated G o p doc ->
  guard_open G request p doc ->
  http_executeFn G o (http_args request o p doc) = Returns result ->
  HTTP.extensions_option o = Some f ->
  exists st,
    HTTP.trace st
    = (http_validation_calls G o p doc ++ lookup_calls request p doc
       ++ [CallExecute (http_args request o p doc);
           CallExtensions (http_info request o p doc result)])%list
    /\ HTTP.boundary G H options request (HTTP.initial G response)
       = (match f (http_info request o p doc result) with
          | Returns x =>
              Normal (if nullish x then result else with_extensions result x)
          | Throws e =>
              if nullish e then
                Throw (TypeError ("Cannot read properties of "
                                  ++ to_String e ++ " (reading 'status')"))
              else
                match header_failure e with
                | Some t => Throw t
                | None =>
                    Normal (failure_envelope
                              (coalesce (event_field e "graphqlErrors")
                                        (JSArray [e])))
                end
          end, st).
Proof.
  intros _ Hr Hv Hg He Hx.
  unfold_words. split_hyps.
  destruct (f {| info_document := doc; info_variables := variables p;
                 info_operationName := operationName p; info_result := result;
                 info_context := HTTP.context_of request o |})
    as [x | e] eqn:Hf.
  - open_guard Hg; run_http.
    all: try absurd_branch.
    all: eexists; (split; [| reflexivity]); reflexivity.
  - destruct (nullish e) eqn:Hn.
    + open_guard Hg; run_http.
      all: try absurd_branch.
      all: destruct e; try discriminate;
        eexists; (split; [| reflexivity]); reflexivity.
    + destruct (header_failure e) as [t |] eqn:Hh.
      * open_guard Hg; run_http.
        all: try absurd_branch.
        all: match goal with
             | |- context [HTTP.on_error ?x ?s] =>
                 destruct (on_error_refused x t s Hn Hh) as (r & Hrun & _)
             end;
          rewrite Hrun; eexists; (split; [| reflexivity]); reflexivity.
      * open_guard Hg; run_http.
        all: try absurd_branch.
        all: rewrite (on_error_eq _ _ Hn Hh);
          eexists; (split; [| reflexivity]); reflexivity.
Qed.

Lemma X12_witness :
  HTTP.sent Data.response_200 = None
  /\ http_ready Sample.host
    (More.static
       (More.http_options Sample.hello_schema None (Some More.run_time)
          None None None JSUndefined))
    Data.post_hello Data.response_200
    {| query := JSString "{ hello }"; variables := JSNull;
       operationName := JSNull; raw := JSBool false |}
    (More.http_options Sample.hello_schema None (Some More.run_time)
       None None None JSUndefined)
  /\ fst (HTTP.boundary (Sample.engine HTTP.Req) Sample.host
            (More.static
               (More.http_options Sample.hello_schema None
                  (Some More.run_time) None None None JSUndefined))
            Data.post_hello
            (HTTP.initial (Sample.engine HTTP.Req) Data.response_200))
     = Normal {| data := JSObject [("hello", JSString "Hello world!")];
                 errors := JSUndefined;
                 extensions := JSObject [("runTime", JSNumber 3)] |}.
Proof.
  assert (Hr : http_ready Sample.host
                 (More.static
                    (More.http_options Sample.hello_schema None
                       (Some More.run_time) None None None JSUndefined))
                 Data.post_hello Data.response_200
                 {| query := JSString "{ hello }"; variables := JSNull;
                    operationName := JSNull; raw := JSBool false |}
                 (More.http_options Sample.hello_schema None
                    (Some More.run_time) None None None JSUndefined))
    by (repeat split; reflexivity).
  split; [reflexivity | split; [exact Hr |]].
  destruct (X12_extensions_merged (Sample.engine HTTP.Req) Sample.host _ _
              Data.response_200
              _ _ (Sample.document [Sample.operation "query" "" "hello"])
              _ More.run_time eq_refl Hr
              (conj eq_refl (conj eq_refl eq_refl))
              (or_introl eq_refl) eq_refl eq_refl) as (st & _ & Hb).
  rewrite Hb. reflexivity.
Defined.

(** ** What the catch block and the try block leave alone *)


Lemma boundary_frame G H options request st0 :
  exists f,
    snd (HTTP.boundary G H options request st0)
    = HTTP.with_response f (snd (HTTP.pipeline G H options request st0)).
Proof.
  open_boundary; unfold try_catch.
  destruct (HTTP.pipeline G H options request st0) as [[r | e |] st1]; simpl.
  - exists (fun r => r). destruct st1; reflexivity.
  - apply on_error_frame.
  - exists (fun r => r). destruct st1; reflexivity.
Qed.

(** The handler's variables once the options are an object. *)
Lemma pipeline_state G H options request response p o :
  HTTP.getGraphQLParams (HTTP.JSON_parse H) request = Returns p ->
  HTTP.options_result options request response (Some p)
  = Returns (HTTP.OptionsObject o) ->
  let st := snd (HTTP.pipeline G H options request (HTTP.initial G response)) in
  HTTP.params st = Some p
  /\ HTTP.formatErrorFn st = chosen_formatter G o
  /\ HTTP.pretty_flag st = option_coalesce (HTTP.pretty o) false
  /\ HTTP.console st = HTTP.deprecation_lines o
  /\ HTTP.showGraphiQL st
     = checks_passed request o
       && HTTP.explorer_eligible request p
            (coalesce (HTTP.graphiql o) (JSBool false))
  /\ HTTP.graphiqlOptions st
     = if checks_passed request o
       then HTTP.graphiqlOptions_after
              (coalesce (HTTP.graphiql o) (JSBool false)) JSUndefined
       else JSUndefined.
Proof.
  intros Hp Ho. unfold checks_passed, chosen_formatter. cbv zeta.
  destruct (nullish (HTTP.schema o)) eqn:Hs;
    destruct (HTTP.method_unsupported request) eqn:Hm;
    cbn [negb andb]; run_pipeline.
  all: repeat split; reflexivity.
Qed.

Lemma boundary_state G H options request response p o :
  HTTP.getGraphQLParams (HTTP.JSON_parse H) request = Returns p ->
  HTTP.options_result options request response (Some p)
  = Returns (HTTP.OptionsObject o) ->
  let st := snd (HTTP.boundary G H options request (HTTP.initial G response)) in
  HTTP.params st = Some p
  /\ HTTP.formatErrorFn st = chosen_formatter G o
  /\ HTTP.pretty_flag st = option_coalesce (HTTP.pretty o) false
  /\ HTTP.console st = HTTP.deprecation_lines o
  /\ HTTP.showGraphiQL st
     = checks_passed request o
       && HTTP.explorer_eligible request p
            (coalesce (HTTP.graphiql o) (JSBool false))
  /\ HTTP.graphiqlOptions st
     = (if checks_passed request o
        then HTTP.graphiqlOptions_after
               (coalesce (HTTP.graphiql o) (JSBool false)) JSUndefined
        else JSUndefined).
Proof.
  intros Hp Ho. cbv zeta.
  destruct (boundary_frame G H options request (HTTP.initial G response))
    as [f Hf].
  rewrite Hf. cbn [HTTP.with_response HTTP.params HTTP.formatErrorFn
                   HTTP.pretty_flag HTTP.console HTTP.showGraphiQL
                   HTTP.graphiqlOptions].
  exact (pipeline_state G H options request response p o Hp Ho).
Qed.

Lemma put_headers_keeps (entries : list (string * JSValue)) (r : HTTP.Response) :
  HTTP.has_json (put_headers entries r) = HTTP.has_json r
  /\ HTTP.sent (put_headers entries r) = HTTP.sent r.
Proof.
  unfold put_headers. revert r.
  induction entries as [| kv entries IH]; intro r; simpl; [auto |].
  destruct (IH (HTTP.with_header (fst kv) (to_String (snd kv)) r)) as [H1 H2].
  rewrite H1, H2. auto.
Qed.

Lemma error_response_keeps (e : JSValue) (r : HTTP.Response) :
  HTTP.has_json (error_response e r) = HTTP.has_json r
  /\ HTTP.sent (error_response e r) = HTTP.sent r.
Proof.
  unfold error_response. cbv zeta.
  destruct (negb (nullish (event_field e "headers"))); [| auto].
  destruct (put_headers_keeps (Object_entries (event_field e "headers"))
              (HTTP.set_statusCode
                 (coalesce (event_field e "status") (JSNumber 500)) r))
    as [H1 H2].
  rewrite H1, H2. auto.
Qed.


(** The [try] block writes to the response only when it renders the
    explorer. *)
Lemma pipeline_response G H options request response :
  let run := HTTP.pipeline G H options request (HTTP.initial G response) in
  match fst run with
  | Returned =>
      exists payload,
        HTTP.response (snd run) = delivered "text/html" payload response
  | _ => HTTP.response (snd run) = response
  end.
Proof.
  cbv zeta. unfold_http. unfold_monad. cbv zeta.
  repeat run_step.
  all: first [reflexivity | eexists; reflexivity].
Qed.

Lemma respond_sends H result st :
  let run := HTTP.respond H result st in
  match fst run with
  | Throw _ => HTTP.sent (HTTP.response (snd run)) = HTTP.sent (HTTP.response st)
  | _ => exists body, HTTP.sent (HTTP.response (snd run)) = Some body
  end.
Proof.
  cbv zeta. unfold_respond. unfold_monad. simpl_state.
  destruct (HTTP.strict_equal_200 (HTTP.statusCode (HTTP.response st))
            && nullish (data result)); simpl_state.
  all: repeat run_step; simpl;
    first [reflexivity | eexists; reflexivity].
Qed.


Lemma eligible_means request p g :
  HTTP.explorer_eligible request p g = true ->
  truthy (raw p) = false
  /\ HTTP.preferred_type request = JSString "html"
  /\ g <> JSBool false.
Proof.
  unfold HTTP.explorer_eligible, HTTP.canDisplayGraphiQL. intro He.
  apply andb_prop in He. destruct He as [He Hg].
  apply andb_prop in He. destruct He as [Hr Hp].
  split; [destruct (truthy (raw p)); [discriminate | reflexivity] |].
  split.
  - destruct (HTTP.preferred_type request); try discriminate.
    apply String.eqb_eq in Hp. subst. reflexivity.
  - intro Hx; subst; discriminate.
Qed.

Lemma coalesce_enabled (g : JSValue) :
  coalesce g (JSBool false) <> JSBool false ->
  nullish g = false /\ g <> JSBool false.
Proof.
  unfold coalesce. destruct (nullish g) eqn:Hn; intro Hx.
  - congruence.
  - auto.
Qed.

(** The [try] block returns early only to render the explorer, past the
    schema and method checks. *)
Lemma pipeline_returns_eligible G H options request response st :
  HTTP.pipeline G H options request (HTTP.initial G response) = (Returned, st) ->
  exists p o,
    HTTP.getGraphQLParams (HTTP.JSON_parse H) request = Returns p /\
    HTTP.options_result options request response (Some p)
    = Returns (HTTP.OptionsObject o) /\
    checks_passed request o = true /\
    HTTP.explorer_eligible request p (coalesce (HTTP.graphiql o) (JSBool false))
    = true.
Proof.
  unfold checks_passed. unfold_http. unfold_monad. cbv zeta.
  repeat run_step.
  all: intro Hx; try discriminate Hx.
  all: eexists; eexists;
    (split; [first [eassumption | reflexivity] |]);
    (split; [first [eassumption | reflexivity] |]).
  all: repeat match goal with
       | Hb : ?b = _ |- context [?b] => rewrite Hb
       end.
  all: split; reflexivity.
Qed.

Lemma pipeline_show_needs_params G H options request response :
  HTTP.showGraphiQL
    (snd (HTTP.pipeline G H options request (HTTP.initial G response))) = true ->
  exists p o,
    HTTP.getGraphQLParams (HTTP.JSON_parse H) request = Returns p /\
    HTTP.options_result options request response (Some p)
    = Returns (HTTP.OptionsObject o).
Proof.
  unfold_http. unfold_monad. cbv zeta.
  repeat run_step.
  all: intro Hx; try discriminate Hx.
  all: eexists; eexists; split; try eassumption; reflexivity.
Qed.

(** ** The response *)



(** ** The explorer *)

(** X14. The HTTP handler answers with the explorer page only if the
    parameters were extracted, the options are an object with a schema, the
    method is GET or POST, the request has no truthy [raw], it prefers
    [html] over [json], and the [graphiql] option is given and is not
    [false]. *)
Theorem X14_explorer_only_when_eligible G H options request response :
  fst (HTTP.graphqlMiddleware G H options request response) = Returned ->
  exists p o,
    HTTP.getGraphQLParams (HTTP.JSON_parse H) request = Returns p /\
    HTTP.options_result options request response (Some p)
    = Returns (HTTP.OptionsObject o) /\
    nullish (HTTP.schema o) = false /\
    HTTP.method_unsupported request = false /\
    truthy (raw p) = false /\
    HTTP.preferred_type request = JSString "html" /\
    nullish (HTTP.graphiql o) = false /\
    HTTP.graphiql o <> JSBool false.
Proof.
  intro Hret.
  assert (Hel : exists p o,
             HTTP.getGraphQLParams (HTTP.JSON_parse H) request = Returns p /\
             HTTP.options_result options request response (Some p)
             = Returns (HTTP.OptionsObject o) /\
             checks_passed request o = true /\
             HTTP.explorer_eligible request p
               (coalesce (HTTP.graphiql o) (JSBool false)) = true).
  { revert Hret.
    open_middleware; unfold bind.
    destruct (HTTP.boundary G H options request (HTTP.initial G response))
      as [[r | e |] st] eqn:Hb; cbn [fst].
    - (* the response phase rendered it *)
      intro Hx.
      assert (Hshow : HTTP.showGraphiQL st = true).
      { revert Hx. unfold_respond. unfold_monad. simpl_state.
        destruct (HTTP.strict_equal_200 (HTTP.statusCode (HTTP.response st))
                  && nullish (data r)); simpl_state.
        all: repeat run_step; simpl; intro Hx;
          try discriminate Hx; reflexivity. }
      destruct (boundary_frame G H options request (HTTP.initial G response))
        as [f Hf].
      rewrite Hb in Hf. cbn [snd] in Hf.
      assert (Hshow' : HTTP.showGraphiQL
                         (snd (HTTP.pipeline G H options request
                                 (HTTP.initial G response))) = true).
      { rewrite Hf in Hshow. exact Hshow. }
      destruct (pipeline_show_needs_params _ _ _ _ _ Hshow')
        as (p & o & Hp & Ho).
      pose proof (boundary_state G H options request response p o Hp Ho) as Hst.
      cbv zeta in Hst. rewrite Hb in Hst. cbn [snd] in Hst.
      destruct Hst as (_ & _ & _ & _ & Hsh & _).
      rewrite Hshow in Hsh. symmetry in Hsh. apply andb_prop in Hsh.
      exists p, o. tauto.
    - discriminate.
    - (* the try block rendered it *)
      intros _. revert Hb. open_boundary; unfold try_catch.
      destruct (HTTP.pipeline G H options request (HTTP.initial G response))
        as [[r1 | e1 |] st1] eqn:Hpipe.
      + discriminate.
      + intro Hx. exfalso.
        destruct (on_error_cases e1 st1)
          as [(_ & t & Hr) | [(_ & _ & Hr) | (_ & t & r & _ & Hr & _)]];
          rewrite Hr in Hx; discriminate.
      + intros _. exact (pipeline_returns_eligible _ _ _ _ _ _ Hpipe). }
  destruct Hel as (p & o & Hp & Ho & Hc & He).
  unfold checks_passed in Hc. apply andb_prop in Hc. destruct Hc as [Hs Hm].
  destruct (eligible_means _ _ _ He) as (Hraw & Hpref & Hg).
  destruct (coalesce_enabled _ Hg) as [Hgn Hgf].
  exists p, o. repeat split; try assumption.
  - destruct (nullish (HTTP.schema o)); [discriminate | reflexivity].
  - destruct (HTTP.method_unsupported request); [discriminate | reflexivity].
Qed.

Lemma X14_witness :
  fst (HTTP.graphqlMiddleware (Sample.engine HTTP.Req) Sample.host
         (Data.static_options Sample.hello_schema (JSBool true))
         Data.get_mutation_html Data.response_200) = Returned
  /\ HTTP.preferred_type Data.get_mutation_html = JSString "html".
Proof.
  assert (Hret : fst (HTTP.graphqlMiddleware (Sample.engine HTTP.Req)
                        Sample.host
                        (Data.static_options Sample.hello_schema (JSBool true))
                        Data.get_mutation_html Data.response_200) = Returned)
    by reflexivity.
  split; [exact Hret |].
  destruct (X14_explorer_only_when_eligible _ _ _ _ _ Hret)
    as (p & o & _ & _ & _ & _ & _ & Hpref & _).
  exact Hpref.
Defined.



(** X16. A request without a query for which the explorer is to be shown
    gets the empty explorer page at once: no engine function is called, the
    page carries neither parameters nor a result, and the status code of the
    response is left as it was. *)
Theorem X16_explorer_for_missing_query G H options request response p o :
  HTTP.getGraphQLParams (HTTP.JSON_parse H) request = Returns p ->
  HTTP.options_result options request response (Some p)
  = Returns (HTTP.OptionsObject o) ->
  checks_passed request o = true ->
  nullish (query p) = true ->
  HTTP.explorer_eligible request p (coalesce (HTTP.graphiql o) (JSBool false))
  = true ->
  let run := HTTP.graphqlMiddleware G H options request response in
  fst run = Returned
  /\ HTTP.trace (snd run) = []
  /\ HTTP.sent (HTTP.response (snd run))
     = Some (HTTP.SentChunk
               (HTTP.renderGraphiQL H (explorer_data None None)
                  (HTTP.graphiqlOptions_after
                     (coalesce (HTTP.graphiql o) (JSBool false)) JSUndefined)))
  /\ HTTP.statusCode (HTTP.response (snd run)) = HTTP.statusCode response.
Proof.
  intros Hp Ho Hc Hq He. cbv zeta.
  unfold checks_passed in Hc. apply andb_prop in Hc. destruct Hc as [Hs Hm].
  apply negb_true_iff in Hs. apply negb_true_iff in Hm.
  open_middleware; unfold bind.
  run_http. repeat split; reflexivity.
Qed.

Lemma X16_witness :
  let request := Data.request_of "GET" [] [] "html" in
  let run :=
    HTTP.graphqlMiddleware (Sample.engine HTTP.Req) Sample.host
      (Data.static_options Sample.hello_schema
         (JSObject [("headerEditorEnabled", JSBool true)]))
      request Data.response_200 in
  nullish (query {| query := JSNull; variables := JSNull;
                    operationName := JSNull; raw := JSBool false |}) = true
  /\ fst run = Returned
  /\ HTTP.trace (snd run) = []
  /\ HTTP.sent (HTTP.response (snd run))
     = Some (HTTP.SentChunk
               (HTTP.renderGraphiQL Sample.host
                  {| HTTP.gql_query := JSUndefined;
                     HTTP.gql_variables := JSUndefined;
                     HTTP.gql_operationName := JSUndefined;
                     HTTP.gql_result := None |}
                  (JSObject [("headerEditorEnabled", JSBool true)]))).
Proof.
  cbv zeta. split; [reflexivity |].
  destruct (X16_explorer_for_missing_query (Sample.engine HTTP.Req)
              Sample.host
              (Data.static_options Sample.hello_schema
                 (JSObject [("headerEditorEnabled", JSBool true)]))
              (Data.request_of "GET" [] [] "html") Data.response_200
              {| query := JSNull; variables := JSNull; operationName := JSNull;
                 raw := JSBool false |}
              (Data.http_options Sample.hello_schema
                 (JSObject [("headerEditorEnabled", JSBool true)]))
              eq_refl eq_refl eq_refl eq_refl eq_refl)
    as (Hrun & Htrace & Hsent & _).
  split; [exact Hrun | split; [exact Htrace | exact Hsent]].
Defined.

(** ** Every request *)

(** X17. Whatever the request, the options and the collaborators do, the HTTP
    handler ends in one of two ways: it has sent a response (the explorer
    page or a result), or it rejects with what was thrown and the response is
    as unsent as it was given. *)
Theorem X17_one_response_or_rejection G H options request response :
  let run := HTTP.graphqlMiddleware G H options request response in
  match fst run with
  | Throw _ => HTTP.sent (HTTP.response (snd run)) = HTTP.sent response
  | _ => exists body, HTTP.sent (HTTP.response (snd run)) = Some body
  end.
Proof.
  cbv zeta.
  open_middleware; open_boundary; unfold bind, try_catch.
  pose proof (pipeline_response G H options request response) as Hp.
  cbv zeta in Hp.
  destruct (HTTP.pipeline G H options request (HTTP.initial G response))
    as [[r | e |] st1]; cbn [fst snd] in Hp.
  - pose proof (respond_sends H r st1) as Hr. cbv zeta in Hr.
    rewrite Hp in Hr. exact Hr.
  - destruct (on_error_cases e st1)
      as [(_ & t & Ht) | [(_ & _ & Ht) | (_ & t & r & _ & Ht & _ & _ & Hs)]];
      rewrite Ht.
    + cbn [fst snd]. rewrite Hp. reflexivity.
    + pose proof (respond_sends H
                    (failure_envelope
                       (coalesce (event_field e "graphqlErrors") (JSArray [e])))
                    (HTTP.with_response (error_response e) st1)) as Hr.
      cbv zeta in Hr. cbn [HTTP.with_response HTTP.response] in Hr.
      destruct (error_response_keeps e (HTTP.response st1)) as [_ Hsent].
      rewrite Hsent, Hp in Hr. exact Hr.
    + cbn [fst snd HTTP.with_response HTTP.response].
      rewrite Hs, Hp. reflexivity.
  - destruct Hp as [payload Hp]. cbn [fst snd]. rewrite Hp.
    eexists; reflexivity.
Qed.

(** X18. The HTTP handler never leaves the status code at 200 for a result
    without data: whatever status the [try]/[catch] statement left, if the
    status after the response phase is 200 then the result has data that is
    neither null nor undefined. *)
Theorem X18_never_200_without_data G H options request response r st :
  HTTP.boundary G H options request (HTTP.initial G response) = (Normal r, st) ->
  HTTP.statusCode
    (HTTP.response (snd (HTTP.graphqlMiddleware G H options request response)))
  = JSNumber 200 ->
  nullish (data r) = false.
Proof.
  intros Hb.
  open_middleware; unfold bind. rewrite Hb.
  rewrite respond_status.
  destruct (HTTP.strict_equal_200 (HTTP.statusCode (HTTP.response st))) eqn:H2;
    destruct (nullish (data r)); simpl; intro Hx; try reflexivity.
  - discriminate Hx.
  - rewrite Hx in H2. discriminate H2.
Qed.

Lemma X18_witness :
  HTTP.statusCode
    (HTTP.response
       (snd (HTTP.graphqlMiddleware (Sample.engine HTTP.Req) Sample.host
               (More.static More.plain) Data.post_hello Data.response_200)))
  = JSNumber 200
  /\ nullish (JSObject [("hello", JSString "Hello world!")]) = false.
Proof.
  split; [reflexivity |].
  exact (X18_never_200_without_data (Sample.engine HTTP.Req) Sample.host
           (More.static More.plain) Data.post_hello Data.response_200
           {| data := JSObject [("hello", JSString "Hello world!")];
              errors := JSUndefined; extensions := JSUndefined |}
           (snd (HTTP.boundary (Sample.engine HTTP.Req) Sample.host
                   (More.static More.plain) Data.post_hello
                   (HTTP.initial (Sample.engine HTTP.Req) Data.response_200)))
           eq_refl eq_refl).
Defined.

(** X19. The operation lookup ([getOperationAST]) is a matter of GET
    requests only: for a request of any other method the HTTP handler never
    calls it, whatever the query is, so a POST is never barred for being a
    mutation. *)
Theorem X19_post_skips_operation_lookup G H options request response :
  String.eqb (HTTP.method request) "GET" = false ->
  existsb is_get_operation_lookup
    (HTTP.trace (snd (HTTP.graphqlMiddleware G H options request response)))
  = false.
Proof.
  intro Hm. rewrite middleware_trace.
  unfold_http. unfold_monad. cbv zeta.
  repeat run_known.
  all: reflexivity.
Qed.

Lemma X19_witness :
  String.eqb (HTTP.method (More.post "mutation { setHello }" "json")) "GET"
  = false
  /\ existsb is_get_operation_lookup
       (HTTP.trace
          (snd (HTTP.graphqlMiddleware (Sample.engine HTTP.Req) Sample.host
                  (More.static More.plain)
                  (More.post "mutation { setHello }" "json")
                  Data.response_200)))
     = false.
Proof.
  split; [reflexivity |].
  exact (X19_post_skips_operation_lookup (Sample.engine HTTP.Req) Sample.host
           (More.static More.plain) (More.post "mutation { setHello }" "json")
           Data.response_200 eq_refl).
Defined.

(** ** Options of a request whose parameters could not be extracted *)

(** X20. A request whose body could not be parsed fails extraction with the
    body parser's error.  When extraction failed, the HTTP handler, given a
    response that has not been sent, resolves the options without the request
    parameters and calls no engine function: if the options are an object,
    the extraction failure is reported, and the formatter and [pretty] of
    these options are the ones in use for the response; if resolving the
    options throws, that error is reported in place of the extraction
    failure, with the engine's formatter and without [pretty].  In both
    cases, if the value to report carries a header that the response
    refuses, the [catch] block throws the refusal instead. *)
Theorem X20_extraction_failure_options :
  (forall J request e,
     HTTP.body_data request = Throws e ->
     HTTP.getGraphQLParams J request = Throws e)
  /\
  (forall G H options request response e o,
     HTTP.sent response = None ->
     HTTP.getGraphQLParams (HTTP.JSON_parse H) request = Throws e ->
     HTTP.options_result options request response None
     = Returns (HTTP.OptionsObject o) ->
     nullish e = false ->
     exists st,
       HTTP.boundary G H options request (HTTP.initial G response)
       = (match header_failure e with
          | Some t => Throw t
          | None =>
              Normal (failure_envelope
                        (coalesce (event_field e "graphqlErrors")
                                  (JSArray [e])))
          end, st)
       /\ HTTP.trace st = []
       /\ HTTP.formatErrorFn st
          = option_coalesce (HTTP.customFormatErrorFn o)
              (option_coalesce (HTTP.formatError_option o) (formatError G))
       /\ HTTP.pretty_flag st = option_coalesce (HTTP.pretty o) false)
  /\
  (forall G H options request response e e',
     HTTP.sent response = None ->
     HTTP.getGraphQLParams (HTTP.JSON_parse H) request = Throws e ->
     HTTP.options_result options request response None = Throws e' ->
     nullish e' = false ->
     exists st,
       HTTP.boundary G H options request (HTTP.initial G response)
       = (match header_failure e' with
          | Some t => Throw t
          | None =>
              Normal (failure_envelope
                        (coalesce (event_field e' "graphqlErrors")
                                  (JSArray [e'])))
          end, st)
       /\ HTTP.trace st = []
       /\ HTTP.formatErrorFn st = formatError G
       /\ HTTP.pretty_flag st = false).
Proof.
  split; [| split].
  - intros J request e Hb. open_extractor. rewrite Hb.
    reflexivity.
  - intros G H options request response e o _ Hp Ho Hn.
    destruct (header_failure e) as [t |] eqn:Hh; run_http.
    + match goal with
      | |- context [HTTP.on_error ?x ?s] =>
          destruct (on_error_refused x t s Hn Hh) as (r & Hrun & _)
      end.
      rewrite Hrun.
      eexists; split; [reflexivity | repeat split; reflexivity].
    + rewrite (on_error_eq _ _ Hn Hh).
      eexists; split; [reflexivity | repeat split; reflexivity].
  - intros G H options request response e e' _ Hp Ho Hn.
    destruct (header_failure e') as [t |] eqn:Hh; run_http.
    + match goal with
      | |- context [HTTP.on_error ?x ?s] =>
          destruct (on_error_refused x t s Hn Hh) as (r & Hrun & _)
      end.
      rewrite Hrun.
      eexists; split; [reflexivity | repeat split; reflexivity].
    + rewrite (on_error_eq _ _ Hn Hh).
      eexists; split; [reflexivity | repeat split; reflexivity].
Qed.

Lemma X20_witness :
  HTTP.sent Data.response_200 = None
  /\ HTTP.getGraphQLParams Sample.JSON_parse Data.post_bad_variables
     = Throws invalid_variables_failure
  /\ fst (HTTP.boundary (Sample.engine HTTP.Req) Sample.host
            Data.options_reading_params Data.post_bad_variables
            (HTTP.initial (Sample.engine HTTP.Req) Data.response_200))
     = Normal (failure_envelope
                 (JSArray [TypeError "Cannot read properties of undefined (reading 'query')"])).
Proof.
  assert (Hp : HTTP.getGraphQLParams Sample.JSON_parse Data.post_bad_variables
               = Throws invalid_variables_failure) by reflexivity.
  split; [reflexivity | split; [exact Hp |]].
  destruct (proj2 (proj2 X20_extraction_failure_options)
              (Sample.engine HTTP.Req) Sample.host
              Data.options_reading_params Data.post_bad_variables
              Data.response_200 invalid_variables_failure
              (TypeError "Cannot read properties of undefined (reading 'query')")
              eq_refl Hp eq_refl eq_refl) as (st & Hb & _).
  rewrite Hb. reflexivity.
Defined.

(** ** The deprecation warning *)

Lemma respond_console H result st :
  HTTP.console (snd (HTTP.respond H result st)) = HTTP.console st.
Proof.
  unfold_respond. unfold_monad.
  repeat run_step; reflexivity.
Qed.

Lemma middleware_console G H options request response :
  HTTP.console (snd (HTTP.graphqlMiddleware G H options request response))
  = HTTP.console
      (snd (HTTP.pipeline G H options request (HTTP.initial G response))).
Proof.
  open_middleware; unfold bind.
  destruct (boundary_frame G H options request (HTTP.initial G response))
    as [f Hf].
  destruct (HTTP.boundary G H options request (HTTP.initial G response))
    as [[r | e |] st1]; cbn [snd] in *.
  - rewrite respond_console, Hf. reflexivity.
  - rewrite Hf. reflexivity.
  - rewrite Hf. reflexivity.
Qed.

(** X21. The options are resolved exactly once per request, with the
    parameters when they were extracted and without them otherwise; when they
    are an object, the warning that [formatError] is deprecated is logged
    once if the options have a [formatError] and not at all if they have
    none, whether the request then succeeds, fails or shows the explorer. *)
Theorem X21_deprecation_warned_once G H options request response o :
  HTTP.options_result options request response
    (match HTTP.getGraphQLParams (HTTP.JSON_parse H) request with
     | Returns p => Some p
     | Throws _ => None
     end)
  = Returns (HTTP.OptionsObject o) ->
  HTTP.console (snd (HTTP.graphqlMiddleware G H options request response))
  = match HTTP.formatError_option o with
    | Some _ =>
        ["`formatError` is deprecated and replaced by `customFormatErrorFn`. It will be removed in version 1.0.0."]
    | None => []
    end.
Proof.
  intro Ho. rewrite middleware_console.
  destruct (HTTP.getGraphQLParams (HTTP.JSON_parse H) request) as [p | e]
    eqn:Hp.
  - destruct (pipeline_state G H options request response p o Hp Ho)
      as (_ & _ & _ & Hc & _).
    exact Hc.
  - change (HTTP.console
              (snd (HTTP.pipeline G H options request
                      (HTTP.initial G response)))
            = HTTP.deprecation_lines o).
    run_pipeline. reflexivity.
Qed.

Lemma X21_witness :
  let o :=
    More.http_options Sample.hello_schema None None None
      (Some Data.hide_message) None JSUndefined in
  HTTP.formatError_option o = Some Data.hide_message
  /\ HTTP.console
       (snd (HTTP.graphqlMiddleware (Sample.engine HTTP.Req) Sample.host
               (More.static o) Data.post_bad_variables Data.response_200))
     = ["`formatError` is deprecated and replaced by `customFormatErrorFn`. It will be removed in version 1.0.0."].
Proof.
  cbv zeta. split; [reflexivity |].
  exact (X21_deprecation_warned_once (Sample.engine HTTP.Req) Sample.host
           (More.static
              (More.http_options Sample.hello_schema None None None
                 (Some Data.hide_message) None JSUndefined))
           Data.post_bad_variables Data.response_200 _ eq_refl).
Defined.

(** ** Creating the middleware *)



(** ** What the cloud-function handler leaves out *)

(** X23. The cloud-function handler calls the engine at most four times and
    only to validate the schema, parse, validate the document and execute: it
    never looks up the operation and never calls an extensions function,
    whatever the event and the options are. *)
Theorem X23_wx_engine_calls G J options :
  let evs := snd (WX.graphqlWXServer G J options []) in
  (List.length evs <= 4)%nat
  /\ forall ev, In ev evs ->
       match ev with
       | CallGetOperationAST _ _ | CallExtensions _ => False
       | _ => True
       end.
Proof.
  unfold WX.graphqlWXServer, WX.pipeline, WX.on_error, WX.call.
  unfold_monad. cbv zeta.
  repeat (case_step; cbn [fst snd app] in * ).
  all: split; [cbn [List.length]; lia | intros ev Hin; in_cases; exact I].
Qed.
